(** * Hyperspectral-to-netCDF transformer: a shallow embedding of
    [transformer.py] and the properties of its calibration engine.

    The embedding follows the Python source function by function and keeps
    its names.  Python strings are [string]s compared byte-wise, Python
    integers are [Z], NumPy [float64] values are binary64 [float]s, Python
    exceptions are values of [exception] carried by the [result] monad, and
    dictionaries are [gmap]s or, where iteration order matters, association
    lists. *)

From Stdlib Require Import ZArith List String Ascii Bool Floats Lia OrderedTypeEx.
From stdpp Require Import base option list gmap strings pretty.
Import ListNotations.

Local Open Scope string_scope.
Local Open Scope list_scope.
Local Open Scope nat_scope.

(** ** Python exceptions and the [result] monad *)

Inductive exception_class :=
| KeyError | IndexError | TypeError | ValueError | AttributeError
| RuntimeError | OSError | OverflowError.

(** [Exception cls msg]: an exception of class [cls] whose [str()] is [msg]. *)
Inductive exception := Exception (cls : exception_class) (msg : string).

Definition exception_cls (e : exception) : exception_class :=
  let 'Exception c _ := e in c.

Definition str_exception (e : exception) : string :=
  let 'Exception _ m := e in m.

Inductive result (A : Type) :=
| Ok (a : A)
| Raise (e : exception).
Arguments Ok {A} a.
Arguments Raise {A} e.

#[global] Instance result_ret : MRet result := fun A a => Ok a.
#[global] Instance result_bind : MBind result := fun A B f m =>
  match m with
  | Ok a => f a
  | Raise e => Raise e
  end.

#[global] Instance result_fmap : FMap result := fun A B f m =>
  match m with
  | Ok a => Ok (f a)
  | Raise e => Raise e
  end.

Definition raise {A} (cls : exception_class) (msg : string) : result A :=
  Raise (Exception cls msg).

(** A [for] loop whose body may raise: the accumulator is threaded through
    the items in order and the first exception aborts the loop. *)
Fixpoint for_each {A S : Type} (body : S -> A -> result S) (items : list A)
    (s : S) : result S :=
  match items with
  | [] => Ok s
  | x :: rest => s' ← body s x; for_each body rest s'
  end.

(** ** Python string operations used by the transformer *)

(** [s.endswith(suffix)] *)
Fixpoint endswith (s suffix : string) : bool :=
  String.eqb s suffix ||
  match s with
  | EmptyString => false
  | String _ s' => endswith s' suffix
  end.

(** [s.replace(old, new)] for a one-character [old]; [new] is any string
    (the transformer only replaces single characters). *)
Fixpoint replace (old : ascii) (new : string) (s : string) : string :=
  match s with
  | EmptyString => EmptyString
  | String c s' =>
      if Ascii.eqb c old then new +:+ replace old new s'
      else String c (replace old new s')
  end.

(** [s.split(sep)] for a one-character separator: empty fields are kept. *)
Fixpoint split_aux (sep : ascii) (cur : string) (s : string) : list string :=
  match s with
  | EmptyString => [cur]
  | String c s' =>
      if Ascii.eqb c sep then cur :: split_aux sep EmptyString s'
      else split_aux sep (cur +:+ String c EmptyString) s'
  end.

Definition split (sep : ascii) (s : string) : list string :=
  split_aux sep EmptyString s.

(** [c in s] for a character [c] *)
Fixpoint contains_char (c : ascii) (s : string) : bool :=
  match s with
  | EmptyString => false
  | String d s' => Ascii.eqb d c || contains_char c s'
  end.

(** [s[a:b]] for non-negative bounds *)
Definition str_slice (a b : nat) (s : string) : string :=
  substring a (b - a) s.

Definition is_space (c : ascii) : bool :=
  let n := nat_of_ascii c in
  (n =? 32) || ((9 <=? n) && (n <=? 13)).

Definition digit_value (c : ascii) : option Z :=
  let n := nat_of_ascii c in
  if (48 <=? n) && (n <=? 57) then Some (Z.of_nat (n - 48)) else None.

Fixpoint lstrip (s : string) : string :=
  match s with
  | String c s' => if is_space c then lstrip s' else s
  | EmptyString => EmptyString
  end.

(** Digits of an integer literal; a single underscore may separate two
    digits.  [acc] is the value read so far, [after_digit] tells whether the
    previous character was a digit.  Trailing white space ends the literal. *)
Fixpoint int_digits (acc : Z) (after_digit : bool) (s : string) : option Z :=
  match s with
  | EmptyString => if after_digit then Some acc else None
  | String c s' =>
      match digit_value c with
      | Some d => int_digits (10 * acc + d)%Z true s'
      | None =>
          if Ascii.eqb c "_"%char then
            if after_digit then
              match s' with
              | String c' _ =>
                  match digit_value c' with
                  | Some _ => int_digits acc false s'
                  | None => None
                  end
              | EmptyString => None
              end
            else None
          else if is_space c then
            if after_digit then
              match lstrip s' with EmptyString => Some acc | _ => None end
            else None
          else None
      end
  end.

(** [int(s)] on a string: optional surrounding white space, an optional
    sign, decimal digits.  Anything else raises [ValueError]. *)
Definition int_of_str (s : string) : result Z :=
  let body := lstrip s in
  let parsed :=
    match body with
    | String "-"%char s' => Z.opp <$> int_digits 0 false s'
    | String "+"%char s' => int_digits 0 false s'
    | _ => int_digits 0 false body
    end in
  match parsed with
  | Some z => Ok z
  | None => raise ValueError ("invalid literal for int() with base 10: '" +:+ s +:+ "'")
  end.

(** ** [__internal__.get_needed_files] *)

Definition get_needed_files (source_files : list string) : option string :=
  fold_left
    (fun raw_file one_file =>
       if endswith one_file "_raw" then Some one_file else raw_file)
    source_files None.

(** ** [__internal__.get_local_time] *)

Definition get_local_time (timestamp : string) : string :=
  if contains_char "T"%char timestamp then
    match split "T"%char timestamp with
    | _ :: time_only :: _ => str_slice 0 8 time_only
    | _ => timestamp
    end
  else timestamp.

(** ** [__internal__.get_camera_info] *)

(** The returned tuple, in the order of the [return] statement: camera type,
    number of spectral bands, number of irradiance bands, scanning time.
    [None] stands for Python's [None]. *)
Definition camera_info : Type := string * option Z * option Z * option Z.

Definition get_camera_info (sensor data_date : string) : camera_info :=
  if String.eqb sensor "VNIR" then
    if String.ltb data_date "2018-08-18" then
      ("vnir_old", Some 955, Some 1024, Some 540)%Z
    else if String.leb "2018-08-18" data_date && String.ltb data_date "2019-02-26" then
      ("vnir_middle", Some 939, Some 1024, Some 540)%Z
    else
      ("vnir_new", Some 939, Some 3648, Some 210)%Z
  else
    if String.ltb data_date "2019-02-26" then
      ("swir_old_middle", None, None, None)
    else
      ("swir_new", Some 275, Some 512, Some 210)%Z.

(** A call of [get_camera_info] seen as a computation that may raise: the
    Python function has no [raise] and performs only string comparisons. *)
Definition call_get_camera_info (sensor data_date : string) : result camera_info :=
  Ok (get_camera_info sensor data_date).

(** ** NumPy values *)

(** The [float64] nearest to the integer [z], ties going to the even
    mantissa; it is infinite when [z] is beyond the range of the format. *)
Definition float_of_Z (z : Z) : float :=
  SF2Prim (binary_normalize prec emax z 0 false).

(** [float(z)] for a Python integer, which is also how NumPy stores a
    Python integer in a [float64] slot. *)
Definition float_of_int (z : Z) : result float :=
  let x := float_of_Z z in
  if is_infinity x then raise OverflowError "int too large to convert to float"
  else Ok x.

Definition float_of_nat (n : nat) : float := float_of_Z (Z.of_nat n).

(** A two-dimensional [float64] array: its column count is part of the
    shape even when there is no row. *)
Record ndarray2 := Ndarray2 {
  ncols : nat;
  rows : list (list float)
}.

(** A three-dimensional array as [tolist()] shows it, together with its
    shape [(dim0, dim1, dim2)]. *)
Record ndarray3 := Ndarray3 {
  dim0 : nat;
  dim1 : nat;
  dim2 : nat;
  cells : list (list (list float))
}.

(** The nested lists of [a] have the extents its shape announces. *)
Definition wf_ndarray3 (a : ndarray3) : Prop :=
  length (cells a) = dim0 a /\
  Forall (fun plane => length plane = dim1 a /\
                       Forall (fun line => length line = dim2 a) plane) (cells a).

(** ** JSON documents as [json.loads] returns them *)

#[warnings="-register-all"]
Inductive json :=
| JNull
| JBool (b : bool)
| JInt (z : Z)
| JFloat (x : float)
| JStr (s : string)
| JArr (items : list json)
| JObj (members : list (string * json)).

Fixpoint assoc {A} (key : string) (members : list (string * A)) : option A :=
  match members with
  | [] => None
  | (k, v) :: rest => if String.eqb k key then Some v else assoc key rest
  end.

(** [obj[key]] with a string key. *)
Definition getitem (obj : json) (key : string) : result json :=
  match obj with
  | JObj members =>
      match assoc key members with
      | Some v => Ok v
      | None => raise KeyError ("'" +:+ key +:+ "'")
      end
  | JArr _ => raise TypeError "list indices must be integers or slices, not str"
  | JStr _ => raise TypeError "string indices must be integers"
  | _ => raise TypeError "object is not subscriptable"
  end.

(** [obj[i]] with a non-negative integer index. *)
Definition getindex (obj : json) (i : nat) : result json :=
  match obj with
  | JArr items =>
      match nth_error items i with
      | Some v => Ok v
      | None => raise IndexError "list index out of range"
      end
  | JStr s =>
      match String.get i s with
      | Some c => Ok (JStr (String c EmptyString))
      | None => raise IndexError "string index out of range"
      end
  | JObj _ => raise KeyError (pretty (Z.of_nat i))
  | _ => raise TypeError "object is not subscriptable"
  end.

(** [len(obj)] *)
Definition len (obj : json) : result nat :=
  match obj with
  | JArr items => Ok (length items)
  | JObj members => Ok (length members)
  | JStr s => Ok (String.length s)
  | _ => raise TypeError "object has no len()"
  end.

(** [key in obj].  On a list or a string Python answers a membership or a
    substring test, and the string subscript that the transformer applies
    next raises [TypeError] whatever the answer was; the model raises it
    here. *)
Definition contains (key : string) (obj : json) : result bool :=
  match obj with
  | JObj members => Ok (bool_decide (is_Some (assoc key members)))
  | _ => raise TypeError "argument is not a dictionary"
  end.

(** The value stored in a [float64] slot for one JSON scalar: numbers and
    booleans are converted, [null] gives not-a-number.  A string is not
    parsed as a number by the model, it is refused like a nested list. *)
Definition float_of_json (v : json) : result float :=
  match v with
  | JInt z => float_of_int z
  | JFloat x => Ok x
  | JBool b => Ok (if b then 1%float else 0%float)
  | JNull => Ok nan
  | _ => raise ValueError "setting an array element with a sequence."
  end.

Fixpoint floats_of_json (vs : list json) : result (list float) :=
  match vs with
  | [] => Ok []
  | v :: rest => x ← float_of_json v; xs ← floats_of_json rest; Ok (x :: xs)
  end.

(** [spectra[idx, :] = spectrum]: the right-hand side must fill a row of
    [num_bands] slots, a one-element sequence or a scalar being repeated
    (NumPy broadcasting). *)
Definition row_of_json (num_bands : nat) (spectrum : json) : result (list float) :=
  match spectrum with
  | JArr items =>
      xs ← floats_of_json items;
      if length xs =? num_bands then Ok xs
      else match xs with
           | [x] => Ok (repeat x num_bands)
           | _ => raise ValueError "could not broadcast input array"
           end
  | JObj _ => raise TypeError "float() argument must be a string or a real number, not 'dict'"
  | JStr _ => raise ValueError "could not convert string to float"
  | scalar => x ← float_of_json scalar; Ok (repeat x num_bands)
  end.

(** [time_current.replace(".", " ").replace("-", " ").replace(":", "").split(" ")]
    followed by [int(array_time[3])]. *)
Definition parse_time (time_current : json) : result Z :=
  match time_current with
  | JStr s =>
      let array_time :=
        split " "%char
          (replace ":"%char "" (replace "-"%char " " (replace "."%char " " s))) in
      match nth_error array_time 3 with
      | Some tok => int_of_str tok
      | None => raise IndexError "list index out of range"
      end
  | _ => raise AttributeError "object has no attribute 'replace'"
  end.

(** ** [__internal__.irradiance_time_extractor] *)

(** The spectrum read for the record at [idx] (lines 126-132 of the source).
    For [swir_new] the source subscripts [sensor_reading_json] with [0]. *)
Definition read_spectrum (camera_type : string) (sensor_reading_json : json)
    (idx : nat) : result json :=
  reading ← getindex sensor_reading_json idx;
  has ← contains "spectrometers" reading;
  if (has : bool) then
    if String.eqb camera_type "swir_new" then
      first ← getindex sensor_reading_json 0;
      s ← getitem first "spectrometers";
      s ← getitem s "NIRQuest-512";
      getitem s "spectrum"
    else
      s ← getitem reading "spectrometers";
      s ← getitem s "FLAME-T";
      getitem s "spectrum"
  else
    s ← getitem reading "spectrometer";
    getitem s "spectrum".

(** [envlog_file] is what [json.loads] made of the file, or the exception
    raised while opening or parsing it. *)
Definition irradiance_time_extractor (camera_type : string)
    (envlog_file : result json) : result (list Z * ndarray2) :=
  env_json ← envlog_file;
  sensor_reading_json ← getitem env_json "environment_sensor_readings";
  num_readings ← len sensor_reading_json;
  first ← getindex sensor_reading_json 0;
  has ← contains "spectrometers" first;
  num_bands ←
    (if (has : bool) then
       if String.eqb camera_type "swir_new" then
         s ← getitem first "spectrometers";
         s ← getitem s "NIRQuest-512";
         s ← getitem s "spectrum"; len s
       else
         s ← getitem first "spectrometers";
         s ← getitem s "FLAME-T";
         s ← getitem s "spectrum"; len s
     else
       s ← getitem first "spectrometer";
       s ← getitem s "spectrum"; len s);
  let spectra := repeat (repeat 0%float num_bands) num_readings in
  '(times, spectra) ←
    for_each
      (fun '(times, spectra) idx =>
         reading ← getindex sensor_reading_json idx;
         time_current ← getitem reading "timestamp";
         time_current_r ← parse_time time_current;
         spectrum ← read_spectrum camera_type sensor_reading_json idx;
         row ← row_of_json num_bands spectrum;
         Ok (times ++ [time_current_r], <[idx := row]> spectra))
      (seq 0 num_readings) ([], spectra);
  Ok (times, Ndarray2 num_bands spectra).

(** ** NumPy operations *)

(** [np.argmin] of a one-dimensional [float64] array: the index of the
    first occurrence of the minimum, or of the first not-a-number.
    [argmin_from best_i best i l] scans [l], whose first element has index
    [i], keeping the best index seen so far; an element [x] replaces the
    best one when [x >= best] does not hold. *)
Fixpoint argmin_from (best_i : nat) (best : float) (i : nat) (l : list float) : nat :=
  match l with
  | [] => best_i
  | x :: rest =>
      if PrimFloat.leb best x then argmin_from best_i best (S i) rest
      else if is_nan x then i
      else argmin_from i x (S i) rest
  end.

Definition argmin (a : list float) : result nat :=
  match a with
  | [] => raise ValueError "attempt to get argmin of an empty sequence"
  | x :: rest => Ok (if is_nan x then 0 else argmin_from 0 x 1 rest)
  end.


(** A slice bound of [a[start:stop]] on a sequence of length [n]: negative
    bounds count from the end, and all bounds are clamped to [0..n]. *)
Definition slice_bound (n : nat) (i : Z) : nat :=
  if (i <? 0)%Z then Z.to_nat (Z.max 0 (i + Z.of_nat n))
  else Nat.min (Z.to_nat i) n.

(** [l[start:stop]] *)
Definition py_slice {A} (start stop : Z) (l : list A) : list A :=
  let a := slice_bound (length l) start in
  let b := slice_bound (length l) stop in
  firstn (b - a) (skipn a l).

(** [np.sum(a, axis=0)]: rows are accumulated in order, starting from the
    first one; no row gives zeros. *)
Definition sum_axis0 (a : ndarray2) : list float :=
  match rows a with
  | [] => repeat 0%float (ncols a)
  | r :: rest => fold_left (fun acc row => zip_with PrimFloat.add acc row) rest r
  end.

(** [np.mean(a, axis=0)]: the column sums divided by the row count (no row
    gives [0/0], not-a-number, in every column). *)
Definition mean_axis0 (a : ndarray2) : list float :=
  map (fun s => PrimFloat.div s (float_of_nat (length (rows a)))) (sum_axis0 a).

(** [np.vstack([a, b])] *)
Definition vstack (a b : ndarray2) : result ndarray2 :=
  if ncols a =? ncols b then Ok (Ndarray2 (ncols a) (rows a ++ rows b))
  else raise ValueError "all the input array dimensions except for the concatenation axis must match exactly".

(** [a[index_list]] on a one-dimensional array: negative indices count from
    the end. *)
Definition take1 (a : list float) (i : Z) : result float :=
  let n := Z.of_nat (length a) in
  let j := if (i <? 0)%Z then (i + n)%Z else i in
  if (j <? 0)%Z then raise IndexError "index is out of bounds"
  else match nth_error a (Z.to_nat j) with
       | Some x => Ok x
       | None => raise IndexError "index is out of bounds"
       end.

Fixpoint take (a : list float) (index : list Z) : result (list float) :=
  match index with
  | [] => Ok []
  | i :: rest => x ← take1 a i; xs ← take a rest; Ok (x :: xs)
  end.

(** [np.resize(a, (1, n))]: [a] is repeated as often as needed; an empty
    [a] gives zeros. *)
Definition resize (a : list float) (n : nat) : list float :=
  match a with
  | [] => repeat 0%float n
  | _ => map (fun i => nth (i mod length a) a 0%float) (seq 0 n)
  end.

(** Broadcasting of two extents: equal, or one of them is 1. *)
Definition broadcast_len (n m : nat) : result nat :=
  if n =? m then Ok n
  else if n =? 1 then Ok m
  else if m =? 1 then Ok n
  else raise ValueError "operands could not be broadcast together".

(** An element-wise operation on two rows whose extents broadcast. *)
Definition broadcast_row (f : float -> float -> float) (xs ys : list float)
  : list float :=
  if length xs =? length ys then zip_with f xs ys
  else match xs, ys with
       | [x], _ => map (f x) ys
       | _, [y] => map (fun a => f a y) xs
       | _, _ => []
       end.

Definition broadcast2 (f : float -> float -> float) (xs ys : list float)
  : result (list float) :=
  _ ← broadcast_len (length xs) (length ys);
  Ok (broadcast_row f xs ys).

(** [a / row] for a cube [a] and an array [row] of shape [(1, n)]: the row
    runs along the last axis of the cube. *)
Definition divide3 (a : ndarray3) (row : list float) : result ndarray3 :=
  d2 ← broadcast_len (dim2 a) (length row);
  Ok (Ndarray3 (dim0 a) (dim1 a) d2
        (map (map (fun px => broadcast_row PrimFloat.div px row)) (cells a))).

(** [a[:, :, 0:k]] *)
Definition take_bands (k : nat) (a : ndarray3) : ndarray3 :=
  Ndarray3 (dim0 a) (dim1 a) (Nat.min k (dim2 a))
    (map (map (firstn k)) (cells a)).

(** [np.rollaxis(a, 2, 0)]: the last axis becomes the first one, so that
    [out[b][r][c] = a[r][c][b]]. *)
Definition rollaxis_2_0 (a : ndarray3) : ndarray3 :=
  Ndarray3 (dim2 a) (dim0 a) (dim1 a)
    (map (fun b => map (map (fun px => nth b px 0%float)) (cells a))
         (seq 0 (dim2 a))).

(** [a[i][j][k]] *)
Definition item3 (a : ndarray3) (i j k : nat) : option float :=
  plane ← cells a !! i; line ← plane !! j; line !! k.

(** ** NumPy conversions between data types *)

(** The [float32] nearest to [x], as a [float64]: the value that is read
    back from a [float32] slot in which [x] was stored. *)
Definition to_float32 (x : float) : float :=
  match Prim2SF x with
  | S754_finite s m e => SF2Prim (binary_round 24 128 s m e)
  | _ => x
  end.

(** The integer part of a finite [x], rounded toward zero. *)
Definition trunc (x : float) : option Z :=
  match Prim2SF x with
  | S754_zero _ => Some 0%Z
  | S754_finite s m e =>
      let a := Z.shiftl (Zpos m) e in
      Some (if s then (- a)%Z else a)
  | _ => None
  end.

(** The type codes of the numeric data types ([dtype.str[1:]]) and the
    value range of the integer ones. *)
Definition is_float_type (dt : string) : bool :=
  String.eqb dt "f4" || String.eqb dt "f8".

Definition int_bounds (dt : string) : option (Z * Z) :=
  assoc dt
    [("i1", (-128, 127)); ("u1", (0, 255));
     ("i2", (-32768, 32767)); ("u2", (0, 65535));
     ("i4", (-2147483648, 2147483647)); ("u4", (0, 4294967295));
     ("i8", (-9223372036854775808, 9223372036854775807));
     ("u8", (0, 18446744073709551615))]%Z.

Definition is_primitive (dt : string) : bool :=
  is_float_type dt || bool_decide (is_Some (int_bounds dt)).

(** A NumPy array as [netCDF4] receives or returns it: data type, shape,
    cells in row-major order and, for a masked array, the mask (no cell of
    a plain array is masked).  A scalar has the empty shape and one cell.
    [ma_groups] are the extents of the groups of neighbouring axes that lie
    contiguous in memory: a freshly made array is one group, and a view
    with permuted axes has several. *)
Record marray := Marray {
  ma_dtype : string;
  ma_shape : list nat;
  ma_groups : list nat;
  ma_cells : list float;
  ma_mask : list bool
}.

(** ** The netCDF data model

    A file is modelled by what [netCDF4] shows of it: global attributes,
    dimensions, and variables with their data type, dimension names,
    attributes and stored values.  The variables are those of the numeric
    data types; a value is carried by the [float64] that equals it, and a
    numeric attribute is a [float64] scalar or vector.  The stored values
    of a variable are the raw ones: packing, masking and type conversion
    take place when [netCDF4] reads or writes them.  Files are taken to be
    written in fill mode, which is the default, and an array multiplied by
    a [float64] scalar to be a [float64] array. *)

(** An attribute value. *)
Inductive att :=
| AttStr (s : string)
| AttNum (x : float)
| AttVec (xs : list float).

Record dimension := Dimension {
  dim_len : nat;
  isunlimited : bool
}.

(** The values of a variable: its current shape and its cells in row-major
    order. *)
Record ncdata := Ncdata {
  shape : list nat;
  flat : list float
}.

Record ncvariable := NcVariable {
  datatype : string;
  dimensions : list string;
  ncattrs : gmap string att;
  data : ncdata
}.

(** A dataset: global attributes, and the dimensions and variables in the
    order of their creation (the order in which [items()] visits them). *)
Record dataset := Dataset {
  ds_ncattrs : gmap string att;
  ds_dimensions : list (string * dimension);
  ds_variables : list (string * ncvariable)
}.

Definition prod_list (l : list nat) : nat := fold_right Nat.mul 1 l.

(** The multi-indices of an array of shape [shp], in row-major order. *)
Fixpoint indices (shp : list nat) : list (list nat) :=
  match shp with
  | [] => [[]]
  | n :: rest => flat_map (fun i => map (cons i) (indices rest)) (seq 0 n)
  end.

(** The position of the cell [idx] among the cells of an array of shape
    [shp]. *)
Fixpoint ravel (shp idx : list nat) : nat :=
  match shp, idx with
  | _ :: shp', i :: idx' => i * prod_list shp' + ravel shp' idx'
  | _, _ => 0
  end.

Definition in_shape (shp idx : list nat) : bool :=
  forallb (fun '(n, i) => i <? n) (zip shp idx).

(** The array [np.rollaxis(x, 2, 0)] as an operand of a netCDF assignment:
    a view of [x] whose first axis was the last one of [x], so that its
    two other axes are contiguous and the first one is not. *)
Definition rolled_array (a : ndarray3) : marray :=
  let cells := concat (map (@concat float) (cells a)) in
  Marray "f8" [dim0 a; dim1 a; dim2 a] [dim0 a; dim1 a * dim2 a] cells
    (map (fun _ => false) cells).

(** The cells of slot [i] along the leading dimension. *)
Definition slot (d : ncdata) (i : nat) : list float :=
  let slab := prod_list (tail (shape d)) in
  firstn slab (skipn (i * slab) (flat d)).

(** Replaces the variable called [name]. *)
Fixpoint set_var (name : string) (v : ncvariable)
    (vars : list (string * ncvariable)) : list (string * ncvariable) :=
  match vars with
  | [] => []
  | (k, w) :: rest =>
      if String.eqb k name then (k, v) :: rest else (k, w) :: set_var name v rest
  end.

(** [ds[name]] *)
Definition get_var (ds : dataset) (name : string) : result ncvariable :=
  match assoc name (ds_variables ds) with
  | Some v => Ok v
  | None => raise IndexError (name +:+ " not found in /")
  end.

Definition put_var (ds : dataset) (name : string) (v : ncvariable) : dataset :=
  Dataset (ds_ncattrs ds) (ds_dimensions ds) (set_var name v (ds_variables ds)).

(** [setncatts(atts)]: every attribute of [atts] is set, the others stay. *)
Definition setncatts (atts : gmap string att) (old : gmap string att)
  : gmap string att := atts ∪ old.

(** The dimension made by [createDimension(name, size)]: [size = None]
    makes it unlimited, with no entry along it yet, and so does the size 0,
    which the library hands to [nc_def_dim] where it is [NC_UNLIMITED]. *)
Definition created_dimension (size : option nat) : dimension :=
  match size with
  | Some (S n) => Dimension (S n) false
  | Some 0 | None => Dimension 0 true
  end.

(** [ds.createDimension(name, size)] *)
Definition createDimension (name : string) (size : option nat) (ds : dataset)
  : result dataset :=
  match assoc name (ds_dimensions ds) with
  | Some _ => raise RuntimeError "NetCDF: String match to name in use"
  | None =>
      Ok (Dataset (ds_ncattrs ds)
            (ds_dimensions ds ++ [(name, created_dimension size)])
            (ds_variables ds))
  end.

(** The dimensions called [names], as the dataset declares them. *)
Fixpoint lookup_dims (ds : dataset) (names : list string) : result (list dimension) :=
  match names with
  | [] => Ok []
  | n :: rest =>
      match assoc n (ds_dimensions ds) with
      | Some d => ds' ← lookup_dims ds rest; Ok (d :: ds')
      | None => raise ValueError ("cannot find dimension " +:+ n +:+ " in this group or parent groups")
      end
  end.

(** [f] applied to the variable [ds[name]]: the variable is looked up,
    [f] works on it, and the dataset holds the outcome. *)
Definition with_var (name : string) (f : ncvariable -> result ncvariable)
    (ds : dataset) : result dataset :=
  v ← get_var ds name;
  w ← f v;
  Ok (put_var ds name w).

Definition set_data (v : ncvariable) (values : ncdata) : ncvariable :=
  NcVariable (datatype v) (dimensions v) (ncattrs v) values.

(** [var.setncatts(atts)] *)
Definition var_setncatts (atts : gmap string att) (v : ncvariable) : ncvariable :=
  NcVariable (datatype v) (dimensions v) (setncatts atts (ncattrs v)) (data v).

(** The slices that the transformer writes along: [:], [:k] and [k:]. *)
Inductive slice :=
| SliceAll
| SliceUpto (k : nat)
| SliceFrom (k : nat).

(** The start and the count of a slice along a dimension when [netCDF4]
    writes values of shape [value_shape]; [i] is the position of the
    dimension.  Along a dimension of fixed length the slice is clamped to
    the length.  Along an unlimited dimension a slice without upper bound
    takes the extent of the values at position [i] (a scalar fills what
    exists, or one entry when nothing exists), and a slice with an upper
    bound beyond the current length extends to that bound. *)
Definition slice_extent (value_shape : list nat) (i : nat) (d : dimension)
    (e : slice) : result (nat * nat) :=
  let current := dim_len d in
  let scalar := bool_decide (value_shape = []) in
  let base := if isunlimited d && scalar && (current =? 0) then 1 else current in
  let extent (from : nat) : result nat :=
    if isunlimited d && negb scalar then
      match value_shape !! i with
      | Some n => Ok (from + n)
      | None => raise IndexError "shape of data array does not conform to slice"
      end
    else Ok base in
  match e with
  | SliceAll => len ← extent 0; Ok (0, len)
  | SliceUpto k =>
      let len := if isunlimited d && (current <? k) then k else base in
      Ok (0, Nat.min k len)
  | SliceFrom k => len ← extent k; Ok (Nat.min k len, len - Nat.min k len)
  end.

Fixpoint slice_extents (value_shape : list nat) (i : nat) (dims : list dimension)
    (elem : list slice) : result (list (nat * nat)) :=
  match dims, elem with
  | d :: dims', e :: elem' =>
      x ← slice_extent value_shape i d e;
      xs ← slice_extents value_shape (S i) dims' elem';
      Ok (x :: xs)
  | _, _ => Ok []
  end.

(** [numpy.broadcast_to]: the shapes are aligned on their last extents, and
    an extent 1 of the array is repeated. *)
Definition broadcastable (shp target : list nat) : bool :=
  (length shp <=? length target) &&
  forallb (fun '(n, t) => (n =? t) || (n =? 1)) (zip (rev shp) (rev target)).

Definition broadcast_index (shp idx : list nat) : list nat :=
  zip_with (fun n i => if n =? 1 then 0 else i) shp
    (skipn (length idx - length shp) idx).

(** Whether the extents [target], taken in order, split into runs whose
    products are the extents [groups]: [consume g acc target] looks for the
    end of the run of product [g], [acc] being the product so far. *)
Fixpoint consume (g acc : nat) (target : list nat) : option (list nat) :=
  if acc =? g then Some target
  else match target with
       | [] => None
       | n :: rest => consume g (acc * n) rest
       end.

Fixpoint regroup (groups target : list nat) : bool :=
  match groups, target with
  | [], [] => true
  | g :: groups', n :: rest =>
      match consume g n rest with
      | Some rest' => regroup groups' rest'
      | None => false
      end
  | _, _ => false
  end.

(** Whether [a.shape = target] succeeds for an array with as many cells as
    [target] has: NumPy gives the new shape without copying, which it can
    when no new axis runs across two groups (extents 1 do not count). *)
Definition reshapes_in_place (groups target : list nat) : bool :=
  let proper := List.filter (fun n => negb (n =? 1)) in
  (prod_list target =? 0) || regroup (proper groups) (proper target).

(** The cells that an assignment writes to a region of shape [target] from
    the array [value], [cells] being the cells of the array: a scalar is
    repeated; an array of another shape is reshaped in place when it has as
    many cells as the region, and broadcast otherwise. *)
Definition conform (value : marray) (target : list nat) (cells : list float)
  : result (list float) :=
  let shp := ma_shape value in
  if bool_decide (shp = target) then Ok cells
  else if bool_decide (shp = []) then
    Ok (repeat (hd 0%float cells) (prod_list target))
  else if negb (length shp =? length target) || (1 <? length shp) then
    if prod_list shp =? prod_list target then
      if reshapes_in_place (ma_groups value) target then Ok cells
      else raise AttributeError "Incompatible shape for in-place modification. Use `.reshape()` to make a copy with the desired shape."
    else if broadcastable shp target then
      Ok (map (fun idx => nth (ravel shp (broadcast_index shp idx)) cells 0%float)
            (indices target))
    else raise ValueError "operands could not be broadcast together"
  else raise IndexError "size of data array does not conform to slice".

Definition in_region (start count idx : list nat) : bool :=
  forallb (fun '(s, c, i) => (s <=? i) && (i <? s + c)) (zip (zip start count) idx).

(** The values [d] after the region that starts at [start] and has shape
    [count] received [cells]. *)
Definition write_region (start count : list nat) (cells : list float)
    (d : ncdata) : ncdata :=
  Ncdata (shape d)
    (map (fun idx =>
            if in_region start count idx then
              nth (ravel count (zip_with Nat.sub idx start)) cells 0%float
            else nth (ravel (shape d) idx) (flat d) 0%float)
         (indices (shape d))).

(** The values [d] seen with the shape [shp]: the cells that [d] does not
    have hold [fill]. *)
Definition extend_data (fill : float) (shp : list nat) (d : ncdata) : ncdata :=
  if bool_decide (shape d = shp) then d
  else
    Ncdata shp
      (map (fun idx =>
              if in_shape (shape d) idx then nth (ravel (shape d) idx) (flat d) fill
              else fill)
           (indices shp)).

(** An unlimited dimension grows to [stop] when an entry up to [stop] is
    written along it. *)
Definition grown (stop : nat) (d : dimension) : dimension :=
  if isunlimited d then Dimension (Nat.max (dim_len d) stop) true else d.

Fixpoint grow_dims (names : list string) (stops : list nat)
    (dims : list (string * dimension)) : list (string * dimension) :=
  match names, stops with
  | n :: names', stop :: stops' =>
      grow_dims names' stops'
        (map (fun '(k, d) => if String.eqb k n then (k, grown stop d) else (k, d)) dims)
  | _, _ => dims
  end.

(** The shape of a variable declared over [names]. *)
Definition shape_of (dims : list (string * dimension)) (names : list string)
  : list nat :=
  map (fun n => match assoc n dims with Some d => dim_len d | None => 0 end) names.

Section NetCDF.

(** [netCDF4.default_fillvals], by data type. *)
Variable default_fillvals : string -> float.

(** What the conversion of a [float64] to an integer data type returns
    where C leaves it undefined: for not-a-number, an infinity, or a value
    whose integer part is outside the range of the type. *)
Variable undefined_cast : string -> float -> float.

(** [a.astype(dt)] on one [float64] cell. *)
Definition astype (dt : string) (x : float) : float :=
  if String.eqb dt "f8" then x
  else if String.eqb dt "f4" then to_float32 x
  else match int_bounds dt with
       | Some (lo, hi) =>
           match trunc x with
           | Some z =>
               if (lo <=? z)%Z && (z <=? hi)%Z then float_of_Z z
               else undefined_cast dt x
           | None => undefined_cast dt x
           end
       | None => x
       end.

(** [numpy.array(np.nan, dt)] *)
Definition nan_scalar (dt : string) : result marray :=
  if is_float_type dt then Ok (Marray dt [] [] [nan] [false])
  else raise ValueError "cannot convert float NaN to integer".

(** The value of the cells of a variable that were never written. *)
Definition fill_of (v : ncvariable) : float :=
  match ncattrs v !! "_FillValue" with
  | Some (AttNum x) => x
  | _ => astype (datatype v) (default_fillvals (datatype v))
  end.

(** *** Reading: [var[:]]

    [netCDF4] returns a masked array and unpacks it. *)

(** The values of a numeric attribute, when the attribute is there and its
    values are the same after conversion to the data type of the variable
    ([_check_safecast]). *)
Definition safe_att (dt : string) (atts : gmap string att) (name : string)
  : option (list float) :=
  a ← atts !! name;
  xs ← match a with
       | AttNum x => Some [x]
       | AttVec xs => Some xs
       | AttStr _ => None
       end;
  let same '(x, y) := PrimFloat.eqb x y || (is_nan x && is_nan y) in
  if forallb same (zip xs (map (astype dt) xs)) then Some (map (astype dt) xs)
  else None.

Definition matches (m x : float) : bool :=
  if is_nan m then is_nan x else PrimFloat.eqb x m.

(** Whether the cell [x] is masked ([_toma]): it is a missing value, the
    fill value, or outside the valid range.  A [valid_range] of two values
    stands in for [valid_min] and [valid_max] also when it is not safe to
    convert. *)
Definition masked (dt : string) (atts : gmap string att) (x : float) : bool :=
  let missing :=
    match safe_att dt atts "missing_value" with
    | Some ms => existsb (fun m => matches m x) ms
    | None => false
    end in
  let filled :=
    match safe_att dt atts "_FillValue" with
    | Some (f :: _) => matches f x
    | _ => PrimFloat.eqb x (astype dt (default_fillvals dt))
    end in
  let two_values :=
    match atts !! "valid_range" with
    | Some (AttVec xs) => length xs =? 2
    | Some (AttStr s) => String.length s =? 2
    | _ => false
    end in
  let '(valid_min, valid_max) :=
    if two_values then
      match safe_att dt atts "valid_range" with
      | Some [lo; hi] => (Some lo, Some hi)
      | _ => (None, None)
      end
    else
      (match safe_att dt atts "valid_min" with Some [lo] => Some lo | _ => None end,
       match safe_att dt atts "valid_max" with Some [hi] => Some hi | _ => None end) in
  let below := match valid_min with Some lo => PrimFloat.ltb x lo | None => false end in
  let above := match valid_max with Some hi => PrimFloat.ltb hi x | None => false end in
  missing || filled || below || above.

(** The unpacking of a cell with [scale_factor] and [add_offset], and the
    data type of the unpacked array.  Nothing is unpacked when one of the
    two attributes is not a number; string attributes are taken not to
    spell a number. *)
Definition unpacked (dt : string) (atts : gmap string att)
  : string * (float -> float) :=
  let number name :=
    match atts !! name with
    | None => Some None
    | Some (AttNum x) => Some (Some x)
    | Some _ => None
    end in
  match number "scale_factor", number "add_offset" with
  | Some (Some scale_factor), Some (Some add_offset) =>
      if negb (PrimFloat.eqb add_offset 0) || negb (PrimFloat.eqb scale_factor 1)
      then ("f8", fun x => PrimFloat.add (PrimFloat.mul x scale_factor) add_offset)
      else ("f8", fun x => x)
  | Some (Some scale_factor), Some None =>
      if negb (PrimFloat.eqb scale_factor 1)
      then ("f8", fun x => PrimFloat.mul x scale_factor)
      else (dt, fun x => x)
  | Some None, Some (Some add_offset) =>
      if negb (PrimFloat.eqb add_offset 0)
      then ("f8", fun x => PrimFloat.add x add_offset)
      else (dt, fun x => x)
  | _, _ => (dt, fun x => x)
  end.

(** [var[:]].  The length of [valid_range] is asked for, which a single
    number does not have. *)
Definition var_getitem_all (v : ncvariable) : result marray :=
  match ncattrs v !! "valid_range" with
  | Some (AttNum _) => raise TypeError "object of type 'numpy.float64' has no len()"
  | _ =>
      let '(dt, unpack) := unpacked (datatype v) (ncattrs v) in
      Ok (Marray dt (shape (data v)) [prod_list (shape (data v))]
            (map unpack (flat (data v)))
            (map (masked (datatype v) (ncattrs v)) (flat (data v))))
  end.

(** *** Writing: [var[elem] = value] *)

(** The cells of [value] as the variable [v] stores them: a masked cell
    becomes the fill value of [v], and the others are converted to the data
    type of [v] when the array has another one.  (The transformer writes to
    variables that carry no attribute but [_FillValue], so that nothing is
    packed.) *)
Definition stored_cells (v : ncvariable) (value : marray) : list float :=
  zip_with
    (fun x (m : bool) =>
       if m then fill_of v
       else if String.eqb (ma_dtype value) (datatype v) then x
       else astype (datatype v) x)
    (ma_cells value) (ma_mask value).

(** The variable [v] seen in a dataset whose dimensions are [dims]. *)
Definition extend_var (dims : list (string * dimension)) (v : ncvariable)
  : ncvariable :=
  set_data v (extend_data (fill_of v) (shape_of dims (dimensions v)) (data v)).

(** [ds[name][elem] = value].  A variable without dimension is written like
    one of shape [(1,)].  Missing slices are [:].  An unlimited dimension
    grows to the end of the region, and with it every variable declared
    over it. *)
Definition setitem (name : string) (elem : list slice) (value : marray)
    (ds : dataset) : result dataset :=
  v ← get_var ds name;
  dims ← lookup_dims ds (dimensions v);
  let dims := match dims with [] => [Dimension 1 false] | _ => dims end in
  if length dims <? length elem then
    raise ValueError "slicing expression exceeds the number of dimensions of the variable"
  else
    let elem := elem ++ repeat SliceAll (length dims - length elem) in
    extents ← slice_extents (ma_shape value) 0 dims elem;
    let start := map fst extents in
    let count := map snd extents in
    cells ← conform value count (stored_cells v value);
    if prod_list count =? 0 then Ok ds
    else
      let dims := grow_dims (dimensions v) (zip_with Nat.add start count)
                    (ds_dimensions ds) in
      let ds := Dataset (ds_ncattrs ds) dims
                  (map (fun '(k, w) => (k, extend_var dims w)) (ds_variables ds)) in
      with_var name
        (fun w => Ok (set_data w (write_region start count cells (data w)))) ds.

(** *** Creating a variable *)

(** The variable made by [createVariable]: it has the extents of its
    dimensions, every cell holds the fill value, and [fill_value],
    converted to the data type, is its [_FillValue] attribute. *)
Definition created_variable (datatype : string) (dimensions : list string)
    (fill_value : option att) (ds : dataset) : result ncvariable :=
  dims ← lookup_dims ds dimensions;
  if negb (is_primitive datatype) then
    raise TypeError ("illegal primitive data type, must be one of the numeric type codes, got " +:+ datatype)
  else
    atts ←
      match fill_value with
      | None => Ok (∅ : gmap string att)
      | Some (AttNum x) => Ok {[ "_FillValue" := AttNum (astype datatype x) ]}
      | Some _ => raise ValueError "could not convert the fill value to the data type"
      end;
    let v := NcVariable datatype dimensions atts (Ncdata [] []) in
    let shp := map dim_len dims in
    Ok (set_data v (Ncdata shp (repeat (fill_of v) (prod_list shp)))).

(** [ds.createVariable(name, datatype, dimensions, fill_value=fill_value)] *)
Definition createVariable (name datatype : string) (dimensions : list string)
    (fill_value : option att) (ds : dataset) : result dataset :=
  match assoc name (ds_variables ds) with
  | Some _ => raise RuntimeError "NetCDF: String match to name in use"
  | None =>
      v ← created_variable datatype dimensions fill_value ds;
      Ok (Dataset (ds_ncattrs ds) (ds_dimensions ds) (ds_variables ds ++ [(name, v)]))
  end.

End NetCDF.
(** ** The files and services the transformer reads *)

Record filesystem := Filesystem {
  (** [os.path.isdir(transformer.args.environment_logger)] *)
  isdir_environment_logger : bool;
  (** [os.stat(raw_filename).st_size] and [psutil.virtual_memory().available] *)
  st_size : Z;
  available : Z;
  (** [os.path.exists(raw_filename + '.hdr')] *)
  hdr_exists : bool;
  (** [envi.open(hdr_filename).open_memmap()] *)
  raw_image : result ndarray3;
  (** [os.listdir(environment_logging)], each name with what opening and
      [json.loads] make of the file *)
  envlog_folder : list (string * result json);
  (** [np.load] of the three calibration arrays of a camera type;
      [best_matched_index] is given after [astype(int)] *)
  best_matched_index_npy : string -> result (list Z);
  bias_coeff_npy : string -> result (list float);
  gain_coeff_npy : string -> result (list float);
  (** [Dataset(out_filename)]: the file left by the workflow script *)
  netcdf_file : result dataset
}.

(** ** [__internal__.check_raw_file_size] *)

Definition check_raw_file_size (fs : filesystem) (raw_filename : string)
  : option string :=
  let reserve_memory := (5 * 1024 * 1024)%Z in
  let raw_file_size := st_size fs in
  let available_mem := available fs in
  if (available_mem <=? raw_file_size)%Z then
    Some ("RAW file size " +:+ pretty raw_file_size +:+
          " is too large for available memory " +:+ pretty available_mem +:+
          ": '" +:+ raw_filename +:+ "'")
  else if (available_mem - reserve_memory <=? raw_file_size)%Z then
    Some ("RAW file size " +:+ pretty raw_file_size +:+
          " will consume available and reserved memory: " +:+
          pretty (available_mem + reserve_memory)%Z +:+ " (" +:+
          pretty available_mem +:+ " + " +:+ pretty reserve_memory +:+
          "): '" +:+ raw_filename +:+ "'")
  else None.

Section Transformer.

Variable default_fillvals : string -> float.
Variable undefined_cast : string -> float -> float.

(** ** [__internal__.update_netcdf] *)

(** The body of the loop over [src.dimensions.items()]. *)
Definition copy_dimension (dst : dataset) (item : string * dimension)
  : result dataset :=
  let '(name, dimension) := item in
  createDimension name
    (if isunlimited dimension then None else Some (dim_len dimension)) dst.

(** The body of the loop over [src.variables.items()].  [src[name]] is the
    variable being visited, the keys of [src.variables] being distinct.
    The values read from the template are written before the attributes
    are set (line 194), and [rfl_data] is the view that [np.rollaxis]
    returned. *)
Definition copy_variable (rfl_data : ndarray3) (camera_type : string)
    (dst : dataset) (item : string * ncvariable) : result dataset :=
  let '(name, variable) := item in
  if String.eqb name "Google_Map_View" then Ok dst
  else
    let var_dict := ncattrs variable in
    '(dst, var_dict) ←
      match var_dict !! "_FillValue" with
      | Some fill_value =>
          dst ← createVariable default_fillvals undefined_cast name
                  (datatype variable) (dimensions variable) (Some fill_value) dst;
          Ok (dst, delete "_FillValue" var_dict)
      | None =>
          dst ← createVariable default_fillvals undefined_cast name
                  (datatype variable) (dimensions variable) None dst;
          Ok (dst, var_dict)
      end;
    dst ←
      (if negb (String.eqb name "rfl_img") then
         values ← var_getitem_all default_fillvals undefined_cast variable;
         setitem default_fillvals undefined_cast name [SliceAll] values dst
       else if String.eqb camera_type "vnir_old" then
         dst ← setitem default_fillvals undefined_cast name
                 [SliceUpto 679; SliceAll; SliceAll] (rolled_array rfl_data) dst;
         not_a_number ← nan_scalar (datatype variable);
         setitem default_fillvals undefined_cast name
           [SliceFrom 679; SliceAll; SliceAll] not_a_number dst
       else if String.eqb camera_type "vnir_middle" then
         dst ← setitem default_fillvals undefined_cast name
                 [SliceUpto 662; SliceAll; SliceAll] (rolled_array rfl_data) dst;
         not_a_number ← nan_scalar (datatype variable);
         setitem default_fillvals undefined_cast name
           [SliceFrom 662; SliceAll; SliceAll] not_a_number dst
       else
         setitem default_fillvals undefined_cast name [SliceAll]
           (rolled_array rfl_data) dst);
    with_var name (fun v => Ok (var_setncatts var_dict v)) dst.

(** [input_file] is [Dataset(input_filename)]; the result is the content of
    the new file [output_filename].  The final assignment
    [dst.variables['rfl_img'] = rfl_data] rebinds a key of a Python
    dictionary and writes nothing to the file. *)
Definition update_netcdf (input_file : result dataset) (rfl_data : ndarray3)
    (camera_type : string) : result dataset :=
  src ← input_file;
  let dst := Dataset (setncatts (ds_ncattrs src) ∅) [] [] in
  dst ← for_each copy_dimension (ds_dimensions src) dst;
  dst ← for_each (copy_variable rfl_data camera_type) (ds_variables src) dst;
  if negb (bool_decide (is_Some (assoc "rfl_img" (ds_variables src)))) then
    createVariable default_fillvals undefined_cast "rfl_img" "f4" [] None dst
  else Ok dst.

(** ** [__internal__.apply_calibration] *)

(** Lines 295-306: the time stamps and spectra of every logger file of the
    folder, in the order of the listing.  [num_columns] is the column count
    given to the initial empty array. *)
Definition read_envlog_folder (camera_type : string) (num_columns : nat)
    (folder : list (string * result json)) : result (list Z * ndarray2) :=
  for_each
    (fun '(envlog_tot_time, envlog_spectra) '(one_file, content) =>
       if endswith one_file "environmentlogger.json" then
         '(time, spectrum) ← irradiance_time_extractor camera_type content;
         envlog_spectra ← vstack envlog_spectra spectrum;
         Ok (envlog_tot_time ++ time, envlog_spectra)
       else Ok (envlog_tot_time, envlog_spectra))
    folder ([], Ndarray2 num_columns []).

(** Line 309: [int(image_scanning_time/5)]. *)
Definition num_irridiance_record_of (image_scanning_time : Z) : Z :=
  Z.quot image_scanning_time 5.

(** Lines 318-321: the index of the record closest in time.  The absolute
    differences are Python integers, and each one is stored in a [float64]
    slot of [abs_diff_time] before [np.argmin] compares them. *)
Fixpoint float_slots (values : list Z) : result (list float) :=
  match values with
  | [] => Ok []
  | z :: rest => x ← float_of_int z; xs ← float_slots rest; Ok (x :: xs)
  end.

Definition closest_time_index (image_time : Z) (envlog_tot_time : list Z)
  : result nat :=
  abs_diff_time ← float_slots (map (fun t => Z.abs (image_time - t)) envlog_tot_time);
  argmin abs_diff_time.

(** Line 322: the rows averaged into the mean spectrum. *)
Definition window_rows (ind_closet_time : nat) (num_irridiance_record : Z)
    (envlog_spectra : ndarray2) : list (list float) :=
  py_slice (Z.of_nat ind_closet_time)
    (Z.of_nat ind_closet_time + num_irridiance_record - 1) (rows envlog_spectra).

(** Lines 318-322. *)
Definition compute_mean_spectrum (image_time : Z) (num_irridiance_record : Z)
    (envlog_tot_time : list Z) (envlog_spectra : ndarray2) : result (list float) :=
  ind_closet_time ← closest_time_index image_time envlog_tot_time;
  Ok (mean_axis0
        (Ndarray2 (ncols envlog_spectra)
           (window_rows ind_closet_time num_irridiance_record envlog_spectra))).

(** Lines 343-351: the reflectance from the raw cube, the projected mean
    spectrum (one row) and the gain and bias arrays. *)
Definition compute_reflectance (img_dn : ndarray3) (test_irridance_re : list float)
    (loaded_gain loaded_bias : list float) : result ndarray3 :=
  scaled ← broadcast2 PrimFloat.mul loaded_gain test_irridance_re;
  irrad2dn ← broadcast2 PrimFloat.add scaled loaded_bias;
  rfl_data ← divide3 img_dn irrad2dn;
  Ok (rollaxis_2_0 rfl_data).

(** Lines 336-341: the band subset of the two oldest cameras. *)
Definition legacy_subset (camera_type : string) (test_irridance_re : list float)
    (img_dn : ndarray3) : list float * ndarray3 :=
  if String.eqb camera_type "vnir_old" then
    (firstn 679 test_irridance_re, take_bands 679 img_dn)
  else if String.eqb camera_type "vnir_middle" then
    (firstn 662 test_irridance_re, take_bands 662 img_dn)
  else (test_irridance_re, img_dn).

(** An extent given as a Python value: [None] is not an integer, and a
    negative integer is not an extent. *)
Definition extent_of (v : option Z) : result nat :=
  match v with
  | Some n =>
      if (n <? 0)%Z then raise ValueError "negative dimensions are not allowed"
      else Ok (Z.to_nat n)
  | None => raise TypeError "'NoneType' object cannot be interpreted as an integer"
  end.

Definition apply_calibration (fs : filesystem)
    (raw_filename sensor data_date timestamp : string) : result dataset :=
  let '(camera_type, num_irradiance_bands, image_scanning_time, num_spectral_bands) :=
    get_camera_info sensor data_date in
  let hdr_filename := raw_filename +:+ ".hdr" in
  if negb (hdr_exists fs) then
    raise RuntimeError ("Missing RAW associated file: '" +:+ hdr_filename +:+ "'")
  else
    img_dn ← raw_image fs;
    if String.eqb camera_type "swir_old_middle" then
      update_netcdf (netcdf_file fs) (rollaxis_2_0 img_dn) camera_type
    else
      num_columns ← extent_of image_scanning_time;
      '(envlog_tot_time, envlog_spectra) ←
        read_envlog_folder camera_type num_columns (envlog_folder fs);
      let num_irridiance_record :=
        num_irridiance_record_of (default 0%Z image_scanning_time) in
      image_time ← int_of_str (replace ":"%char "" (get_local_time timestamp));
      mean_spectrum ←
        compute_mean_spectrum image_time num_irridiance_record
          envlog_tot_time envlog_spectra;
      best_matched_index ← best_matched_index_npy fs camera_type;
      test_irridance ← take mean_spectrum best_matched_index;
      num_bands ← extent_of num_irradiance_bands;
      let test_irridance_re := resize test_irridance num_bands in
      loaded_bias ← bias_coeff_npy fs camera_type;
      loaded_gain ← gain_coeff_npy fs camera_type;
      let '(test_irridance_re, img_dn) :=
        legacy_subset camera_type test_irridance_re img_dn in
      rfl_data ← compute_reflectance img_dn test_irridance_re loaded_gain loaded_bias;
      update_netcdf (netcdf_file fs) rfl_data camera_type.

(** ** [perform_process] *)

(** What the host passes: the listed files and the time stamp of
    [check_md], and the command-line arguments of [transformer.args]. *)
Record request := Request {
  list_files : list string;
  timestamp : string;
  sensor : string;
  date_override : option string;
  skip_memory_check : bool;
  environment_logger : string
}.

(** The returned dictionary: [code], and [error] when there is one. *)
Record outcome := Outcome {
  code : Z;
  error : option string
}.

(** Python's truth value of an optional string. *)
Definition truthy (s : option string) : bool :=
  match s with
  | Some (String _ _) => true
  | _ => false
  end.

(** Lines 423-424: the date the camera is looked up with. *)
Definition data_date_of (req : request) : string :=
  let data_date :=
    if truthy (date_override req) then default "" (date_override req)
    else str_slice 0 10 (timestamp req) in
  replace "_"%char "-" (replace "/"%char "-" data_date).

(** The returned dictionary, and the calibrated file when [update_netcdf]
    completed. *)
Definition perform_process (fs : filesystem) (req : request)
  : outcome * option dataset :=
  let raw_filename := get_needed_files (list_files req) in
  if negb (truthy raw_filename) then
    (Outcome (-1000) (Some "A RAW file was not found in the provided list"), None)
  else
    let raw_filename := default "" raw_filename in
    if negb (isdir_environment_logger fs) then
      (Outcome (-1001)
         (Some ("The environmental logger folder was not found: '" +:+
                environment_logger req +:+ "'")), None)
    else
      let error_msg :=
        if negb (skip_memory_check req) then check_raw_file_size fs raw_filename
        else None in
      if truthy error_msg then
        (Outcome (-1002)
           (Some ("Try using the --skip_memory_check switch. " +:+
                  default "" error_msg)), None)
      else
        let data_date := data_date_of req in
        match apply_calibration fs raw_filename (sensor req) data_date (timestamp req) with
        | Ok written => (Outcome 0 None, Some written)
        | Raise ex =>
            let msg := "Exception caught while applying calibration: " +:+
                       str_exception ex in
            (Outcome (-1004) (Some msg), None)
        end.

End Transformer.
(** ** Example inputs *)

(** A raw cube of 2 rows, 2 columns and 3 bands whose cells all hold 4. *)
Definition cube_of_fours : ndarray3 :=
  Ndarray3 2 2 3 (repeat (repeat (repeat 4%float 3) 2) 2).

(** A cube of 3 bands, 2 rows and 2 columns whose cells all hold 2. *)
Definition cube_of_twos : ndarray3 :=
  Ndarray3 3 2 2 (repeat (repeat (repeat 2%float 2) 2) 3).

(** A logger record with both spectrometers. *)
Definition reading_of (stamp : string) (flame nirquest : list float) : json :=
  JObj [("timestamp", JStr stamp);
        ("spectrometers",
         JObj [("FLAME-T", JObj [("spectrum", JArr (map JFloat flame))]);
               ("NIRQuest-512", JObj [("spectrum", JArr (map JFloat nirquest))])])].

(** A logger file of two records whose spectra differ. *)
Definition two_readings_log : json :=
  JObj [("environment_sensor_readings",
         JArr [reading_of "2019.03.01-12:38:49" [1]%float [10; 11]%float;
               reading_of "2019.03.01-12:38:54" [2]%float [20; 21]%float])].

(** A logger file of 101 records: record [i] has the time token
    [100000 + i] and a 3648-band spectrum that holds [i] in every band. *)
Definition series_log : json :=
  JObj [("environment_sensor_readings",
         JArr (map (fun i => reading_of ("2019.03.01-" +:+ pretty (100000 + Z.of_nat i)%Z)
                               (repeat (float_of_nat i) 3648) [])
                   (seq 0 101)))].

Definition series_times : list Z := map (fun i => (100000 + Z.of_nat i)%Z) (seq 0 101).

Definition series_spectra : ndarray2 :=
  Ndarray2 3648 (map (fun i => repeat (float_of_nat i) 3648) (seq 0 101)).

(** A one-column matrix of 800 rows, row [i] holding [i]. *)
Definition long_spectra : ndarray2 :=
  Ndarray2 1 (map (fun i => [float_of_nat i]) (seq 0 800)).

(** A template file with a 939-band reflectance variable of one pixel, the
    excluded visualization variable and a variable along an unlimited
    dimension. *)
Definition vnir_template : dataset :=
  Dataset {[ "title" := AttStr "hyperspectral" ]}
    [("wavelength", Dimension 939 false); ("y", Dimension 1 false);
     ("x", Dimension 1 false); ("time", Dimension 2 true)]
    [("rfl_img",
      NcVariable "f4" ["wavelength"; "y"; "x"]
        {[ "_FillValue" := AttNum 0x1.ep+122%float; "units" := AttStr "1" ]}
        (Ncdata [939; 1; 1] (repeat 0%float 939)));
     ("Google_Map_View",
      NcVariable "u1" ["y"; "x"] ∅ (Ncdata [1; 1] [0%float]));
     ("frametime",
      NcVariable "f8" ["time"] {[ "units" := AttStr "days" ]}
        (Ncdata [2] [1; 2]%float))].

(** A VNIR scan of one pixel whose 939 raw cells hold 100, with unit gain,
    zero bias, the identity band mapping and the logger folder [folder]. *)
Definition vnir_filesystem (folder : list (string * result json)) : filesystem :=
  Filesystem true 1100 1000000000 true
    (Ok (Ndarray3 1 1 939 [[repeat 100%float 939]]))
    folder
    (fun _ => Ok (map Z.of_nat (seq 0 939)))
    (fun _ => Ok (repeat 0%float 939))
    (fun _ => Ok (repeat 1%float 939))
    (Ok vnir_template).

Definition vnir_request : request :=
  Request ["scan_raw"; "scan_raw.hdr"] "2019-03-01T10:00:00-07:00" "VNIR" None false
    "/data/EnvironmentLogger".

(** The reflectance of [vnir_filesystem] as a cube: 939 bands of one pixel. *)
Definition vnir_rfl : ndarray3 := Ndarray3 939 1 1 (repeat [[2%float]] 939).

(** A template of the oldest camera: the reflectance variable has 955 band
    slots of 1 x 2 cells. *)
Definition legacy_template : dataset :=
  Dataset {[ "title" := AttStr "hyperspectral" ]}
    [("wavelength", Dimension 955 false); ("y", Dimension 1 false);
     ("x", Dimension 2 false)]
    [("rfl_img",
      NcVariable "f4" ["wavelength"; "y"; "x"]
        {[ "_FillValue" := AttNum 0x1.ep+122%float ]}
        (Ncdata [955; 1; 2] (repeat 0%float 1910)))].

(** A reflectance of 679 bands whose planes all are [[2; 3]]. *)
Definition legacy_rfl : ndarray3 := Ndarray3 679 1 2 (repeat [[2; 3]%float] 679).

Definition f4_fill : string -> float := fun _ => 0x1.ep+122%float.

(** A platform on which every undefined conversion gives zero. *)
Definition zero_cast : string -> float -> float := fun _ _ => 0%float.

(** A template with a packed variable: the stored 16-bit integers 4 and 8
    stand for 2 and 4. *)
Definition packed_template : dataset :=
  Dataset ∅ [("t", Dimension 2 false)]
    [("temperature",
      NcVariable "i2" ["t"] {[ "scale_factor" := AttNum 0.5 ]}
        (Ncdata [2] [4; 8]%float))].

(** The same variable without packing attribute. *)
Definition plain_template : dataset :=
  Dataset ∅ [("t", Dimension 2 false)]
    [("temperature", NcVariable "i2" ["t"] ∅ (Ncdata [2] [4; 8]%float))].


(** The values of [netCDF4.default_fillvals] for the numeric data types
    (those of the 64-bit integers, which no [float64] equals, are
    rounded). *)
Definition netcdf_fillvals (dt : string) : float :=
  default 0x1.ep+122%float
    (assoc dt
       [("i1", (-127)%float); ("u1", 255%float);
        ("i2", (-32767)%float); ("u2", 65535%float);
        ("i4", (-2147483647)%float); ("u4", 4294967295%float);
        ("i8", (-9223372036854775808)%float); ("u8", 18446744073709551616%float)]).

(** ** Notions used to state the properties *)

(** [s] ends with [suffix]. *)
Definition ends_with (s suffix : string) : Prop := exists p, s = p +:+ suffix.

(** The exception [np.argmin] raises on an empty series. *)
Definition EmptySeries : exception :=
  Exception ValueError "attempt to get argmin of an empty sequence".

(** [i] is the first index at which [l] takes its minimum. *)
Definition first_minimum (l : list Z) (i : nat) : Prop :=
  exists m, l !! i = Some m /\
    (forall k y, l !! k = Some y -> (m <= y)%Z) /\
    (forall k y, k < i -> l !! k = Some y -> (m < y)%Z).

(** The mantissa of the [float64] that equals a positive integer of at most
    53 bits: the integer shifted to 53 bits. *)
Definition mantissa_of (p : positive) : positive :=
  match (Zpos (Pos.size p) - 53)%Z with
  | Zneg d => Pos.iter xO p d
  | _ => p
  end.

(** The binary64 number that equals an integer below [2^53] in absolute
    value. *)
Definition exact_binary64 (z : Z) : spec_float :=
  match z with
  | Z0 => S754_zero false
  | Zpos p => S754_finite false (mantissa_of p) (Zpos (Pos.size p) - 53)
  | Zneg p => S754_finite true (mantissa_of p) (Zpos (Pos.size p) - 53)
  end.

(** The reflectance variable of a legacy camera: a variable of a
    floating-point type with [total_bands] slots of the extents of
    [rfl_data]'s planes, of which the slots below [cutoff] hold the planes of
    [rfl_data], each cell converted to the type of the variable, and the
    slots from [cutoff] on hold not-a-number in every cell. *)
Definition legacy_written (undefined_cast : string -> float -> float)
    (cutoff : nat) (rfl_data : ndarray3) (v : ncvariable) : Prop :=
  exists total_bands,
    shape (data v) = [total_bands; dim1 rfl_data; dim2 rfl_data] /\
    is_float_type (datatype v) = true /\
    (forall i plane, cells rfl_data !! i = Some plane ->
       slot (data v) i = map (astype undefined_cast (datatype v)) (concat plane)) /\
    (forall i, cutoff <= i -> i < total_bands ->
       slot (data v) i = repeat nan (dim1 rfl_data * dim2 rfl_data)).

(** An array of shape [n :: rest] with the cells [old], after an assignment
    of [cells] to the [c0] slots from [s0] on; nothing is written when the
    region has no cell. *)
Definition after_write (n s0 c0 : nat) (rest : list nat) (cells old : list float)
  : ncdata :=
  if prod_list (c0 :: rest) =? 0 then Ncdata (n :: rest) old
  else write_region (s0 :: repeat 0 (length rest)) (c0 :: rest) cells
         (Ncdata (n :: rest) old).

(** The variable [w] lies over dimensions of fixed length of the dataset
    and has their extents. *)
Definition fixed_shape (dims : list (string * dimension)) (w : ncvariable) : Prop :=
  Forall (fun n => exists d, assoc n dims = Some d /\ isunlimited d = false)
         (dimensions w) /\
  shape (data w) = shape_of dims (dimensions w).

(** The three dimensions of the reflectance variable, of fixed length. *)
Definition band_dims (n0 : nat) (rfl_data : ndarray3) : list dimension :=
  [Dimension n0 false; Dimension (dim1 rfl_data) false; Dimension (dim2 rfl_data) false].

(** Every dimension of fixed length of [dims] is in [dims'], unchanged. *)
Definition fixed_kept (dims dims' : list (string * dimension)) : Prop :=
  forall k d, assoc k dims = Some d -> isunlimited d = false -> assoc k dims' = Some d.

(** The step from [ds] to [ds'] keeps the dimensions of fixed length and
    leaves the variable [name] alone: absent it stays absent, and present
    over dimensions of fixed length it stays as it is. *)
Definition keeps_variable (name : string) (ds ds' : dataset) : Prop :=
  fixed_kept (ds_dimensions ds) (ds_dimensions ds') /\
  match assoc name (ds_variables ds) with
  | Some w =>
      fixed_shape (ds_dimensions ds) w -> assoc name (ds_variables ds') = Some w
  | None => assoc name (ds_variables ds') = None
  end.

(** [s] holds none of the characters [cs]. *)
Definition free_of (cs : list ascii) (s : string) : Prop :=
  Forall (fun c => contains_char c s = false) cs.

(** The spectrum that a logger record carries itself: the [FLAME-T]
    spectrum of a record with several spectrometers, the single spectrum of
    a record of the older layout. *)
Definition own_spectrum (reading : json) : result json :=
  has ← contains "spectrometers" reading;
  if (has : bool) then
    s ← getitem reading "spectrometers";
    s ← getitem s "FLAME-T";
    getitem s "spectrum"
  else
    s ← getitem reading "spectrometer";
    getitem s "spectrum".

(** Whether a file of the logger folder is read. *)
Definition is_envlog (file : string * result json) : bool :=
  endswith (fst file) "environmentlogger.json".

(** The body of the loop of [read_envlog_folder]. *)
Definition envlog_step (camera_type : string) (acc : list Z * ndarray2)
    (file : string * result json) : result (list Z * ndarray2) :=
  let '(envlog_tot_time, envlog_spectra) := acc in
  let '(one_file, content) := file in
  if endswith one_file "environmentlogger.json" then
    '(time, spectrum) ← irradiance_time_extractor camera_type content;
    envlog_spectra ← vstack envlog_spectra spectrum;
    Ok (envlog_tot_time ++ time, envlog_spectra)
  else Ok (envlog_tot_time, envlog_spectra).
(** * Properties *)

(** ** Raw-file selection *)

Lemma endswith_unfold (s suffix : string) :
  endswith s suffix =
  String.eqb s suffix ||
  match s with
  | EmptyString => false
  | String _ s' => endswith s' suffix
  end.
Proof. now destruct s. Qed.

Lemma endswith_spec (s suffix : string) :
  endswith s suffix = true <-> ends_with s suffix.
Proof.
  unfold ends_with. induction s as [|c s IH]; rewrite endswith_unfold.
  - rewrite orb_false_r, String.eqb_eq. split.
    + intros <-. now exists "".
    + intros [p Hp]. destruct p; simpl in Hp; [done | discriminate].
  - rewrite orb_true_iff, String.eqb_eq, IH. split.
    + intros [<- | [p ->]]; [now exists "" | now exists (String c p)].
    + intros [p Hp]. destruct p as [|d p].
      * now left.
      * right. exists p.
        change (String c s = String d (p +:+ suffix)) in Hp. congruence.
Qed.

Lemma get_needed_files_snoc (l : list string) (x : string) :
  get_needed_files (l ++ [x]) =
  if endswith x "_raw" then Some x else get_needed_files l.
Proof. unfold get_needed_files. now rewrite fold_left_app. Qed.

(** C10: the raw-file selection returns the last name of the list that ends
    with [_raw]: the list splits around the returned name, which has the
    suffix, and no later name has it; it returns [None] exactly when no name
    of the list has the suffix. *)
Theorem get_needed_files_last_raw (source_files : list string) :
  match get_needed_files source_files with
  | Some raw_file =>
      exists before after,
        source_files = before ++ raw_file :: after /\
        ends_with raw_file "_raw" /\
        Forall (fun f => ~ ends_with f "_raw") after
  | None => Forall (fun f => ~ ends_with f "_raw") source_files
  end.
Proof.
  induction source_files as [|x l IH] using rev_ind.
  - constructor.
  - rewrite get_needed_files_snoc.
    destruct (endswith x "_raw") eqn:Hx.
    + exists l, []. repeat split; [now apply endswith_spec | constructor].
    + assert (Hnx : ~ ends_with x "_raw").
      { rewrite <- endswith_spec. congruence. }
      destruct (get_needed_files l) as [f|].
      * destruct IH as (b & a & -> & Hf & Ha).
        exists b, (a ++ [x]). repeat split; [| done |].
        -- now rewrite <- app_assoc.
        -- apply Forall_app. split; [done | now constructor].
      * apply Forall_app. split; [done | now constructor].
Qed.

(** ** Camera profile resolution *)

(** C4: profile resolution always returns, without raising, one of the five
    profiles; each bracket contains its lower bound, so that the boundary
    dates resolve to the newer camera; and a SWIR date before 2019-02-26
    gives [swir_old_middle] with every other field [None]. *)
Theorem get_camera_info_brackets (data_date : string) :
  (forall sensor,
     call_get_camera_info sensor data_date = Ok (get_camera_info sensor data_date) /\
     In (get_camera_info sensor data_date)
        [("vnir_old", Some 955, Some 1024, Some 540);
         ("vnir_middle", Some 939, Some 1024, Some 540);
         ("vnir_new", Some 939, Some 3648, Some 210);
         ("swir_old_middle", None, None, None);
         ("swir_new", Some 275, Some 512, Some 210)]%Z) /\
  get_camera_info "VNIR" "2018-08-18" = ("vnir_middle", Some 939, Some 1024, Some 540)%Z /\
  get_camera_info "VNIR" "2019-02-26" = ("vnir_new", Some 939, Some 3648, Some 210)%Z /\
  get_camera_info "SWIR" "2019-02-26" = ("swir_new", Some 275, Some 512, Some 210)%Z /\
  (String.ltb data_date "2018-08-18" = true ->
   get_camera_info "VNIR" data_date = ("vnir_old", Some 955, Some 1024, Some 540)%Z) /\
  (String.leb "2018-08-18" data_date = true ->
   String.ltb data_date "2019-02-26" = true ->
   get_camera_info "VNIR" data_date = ("vnir_middle", Some 939, Some 1024, Some 540)%Z) /\
  (String.leb "2019-02-26" data_date = true ->
   get_camera_info "VNIR" data_date = ("vnir_new", Some 939, Some 3648, Some 210)%Z /\
   get_camera_info "SWIR" data_date = ("swir_new", Some 275, Some 512, Some 210)%Z) /\
  (String.ltb data_date "2019-02-26" = true ->
   get_camera_info "SWIR" data_date = ("swir_old_middle", None, None, None)).
Proof.
  assert (Hlt : forall a b, String.leb a b = true -> String.ltb b a = false).
  { intros a b. unfold String.leb, String.ltb.
    rewrite (String.compare_antisym a b).
    destruct (String.compare b a); simpl; congruence. }
  assert (Htr : String.ltb data_date "2018-08-18" = true ->
                String.ltb data_date "2019-02-26" = true).
  { unfold String.ltb. intros H.
    destruct (String.compare data_date "2018-08-18") eqn:E1; try discriminate.
    apply String_as_OT.cmp_lt in E1.
    assert (E2 : String_as_OT.lt "2018-08-18" "2019-02-26")
      by now apply String_as_OT.cmp_lt.
    pose proof (String_as_OT.lt_trans _ _ _ E1 E2) as E3.
    apply String_as_OT.cmp_lt in E3. unfold String_as_OT.cmp in E3.
    now rewrite E3. }
  repeat split.
  - unfold get_camera_info.
    repeat match goal with |- context [if ?b then _ else _] => destruct b end;
      simpl; tauto.
  - intros H. unfold get_camera_info. simpl. now rewrite H.
  - intros H1 H2. unfold get_camera_info. simpl.
    now rewrite (Hlt _ _ H1), H1, H2.
  - unfold get_camera_info. simpl.
    rewrite (Hlt _ _ H). 
    assert (E : String.ltb data_date "2018-08-18" = false).
    { apply not_true_is_false. intros E. apply Htr in E.
      rewrite (Hlt _ _ H) in E. discriminate. }
    now rewrite E, andb_false_r.
  - unfold get_camera_info. simpl. now rewrite (Hlt _ _ H).
  - intros H. unfold get_camera_info. simpl. now rewrite H.
Qed.

Lemma get_camera_info_brackets_witness :
  get_camera_info "SWIR" "2019-02-25" = ("swir_old_middle", None, None, None).
Proof.
  destruct (get_camera_info_brackets "2019-02-25") as (_ & _ & _ & _ & _ & _ & _ & H).
  apply H. reflexivity.
Defined.

(** C9, as stated, fails: a sensor value that is neither [VNIR] nor [SWIR]
    is not rejected, it resolves to a SWIR profile. *)
Lemma unknown_sensor_is_not_rejected :
  "FOO" <> "VNIR" /\ "FOO" <> "SWIR" /\
  call_get_camera_info "FOO" "2020-01-01" =
    Ok ("swir_new", Some 275, Some 512, Some 210)%Z /\
  ~ (exists e, call_get_camera_info "FOO" "2020-01-01" = Raise e).
Proof.
  repeat split; try discriminate.
  intros [e He]. discriminate He.
Qed.

(** C9, amended: profile resolution never raises; every sensor value other
    than [VNIR], known or not, is resolved by the SWIR rules. *)
Theorem get_camera_info_defaults_to_swir (sensor data_date : string) :
  sensor <> "VNIR" ->
  call_get_camera_info sensor data_date = call_get_camera_info "SWIR" data_date /\
  (forall s d, exists info, call_get_camera_info s d = Ok info).
Proof.
  intros Hs. split.
  - unfold call_get_camera_info, get_camera_info.
    apply String.eqb_neq in Hs. now rewrite Hs.
  - intros s d. now eexists.
Qed.

Lemma get_camera_info_defaults_to_swir_witness :
  call_get_camera_info "FOO" "2020-01-01" = call_get_camera_info "SWIR" "2020-01-01".
Proof.
  apply (get_camera_info_defaults_to_swir "FOO" "2020-01-01"). discriminate.
Defined.

(** ** Temporal matching *)

(** *** Integers in [float64] slots *)

Local Open Scope Z_scope.

Lemma digits2_pos_size (p : positive) : digits2_pos p = Pos.size p.
Proof. induction p; simpl; congruence. Qed.

Lemma iter_xO_mul (p d : positive) : Zpos (Pos.iter xO p d) = Zpos p * 2 ^ Zpos d.
Proof.
  rewrite <- (Pos2Z.inj_pow 2 d), <- Pos2Z.inj_mul. f_equal.
  induction d using Pos.peano_ind.
  - simpl. lia.
  - rewrite Pos.iter_succ, IHd, Pos.pow_succ_r. lia.
Qed.

Lemma size_iter_xO (p d : positive) :
  Pos.size (Pos.iter xO p d) = (Pos.size p + d)%positive.
Proof.
  induction d using Pos.peano_ind.
  - simpl. lia.
  - rewrite Pos.iter_succ. simpl. rewrite IHd. lia.
Qed.

Lemma size_mantissa_of (p : positive) :
  Zpos (Pos.size p) <= 53 -> Zpos (Pos.size (mantissa_of p)) = 53.
Proof.
  intros H. unfold mantissa_of.
  destruct (Zpos (Pos.size p) - 53) as [|d|d] eqn:E; [lia | lia |].
  rewrite size_iter_xO. lia.
Qed.

Lemma mantissa_of_value (p : positive) :
  Zpos (Pos.size p) <= 53 ->
  Zpos (mantissa_of p) = Zpos p * 2 ^ (53 - Zpos (Pos.size p)).
Proof.
  intros H. unfold mantissa_of.
  destruct (Zpos (Pos.size p) - 53) as [|d|d] eqn:E; [| lia |].
  - replace (53 - Zpos (Pos.size p)) with 0 by lia. lia.
  - rewrite iter_xO_mul. f_equal. f_equal. lia.
Qed.

Lemma binary_round_small (p : positive) :
  Zpos (Pos.size p) <= 53 ->
  binary_round prec emax false p 0 =
  S754_finite false (mantissa_of p) (Zpos (Pos.size p) - 53).
Proof.
  intros H. pose proof (size_mantissa_of p H) as Hm.
  unfold binary_round, shl_align. rewrite digits2_pos_size.
  assert (Hf : fexp prec emax (Zpos (Pos.size p) + 0) = Zpos (Pos.size p) - 53).
  { unfold fexp, SpecFloat.emin, prec, emax. lia. }
  rewrite Hf, Z.sub_0_r.
  assert (Hshift :
    (match Zpos (Pos.size p) - 53 with
     | Zneg d => (Pos.iter xO p d, Zpos (Pos.size p) - 53)
     | _ => (p, 0)
     end) = (mantissa_of p, Zpos (Pos.size p) - 53)).
  { unfold mantissa_of. destruct (Zpos (Pos.size p) - 53) eqn:E; try reflexivity; lia. }
  rewrite Hshift. clear Hshift Hf.
  unfold binary_round_aux.
  assert (Hs : forall l, shr_fexp prec emax (Zpos (mantissa_of p)) (Zpos (Pos.size p) - 53) l =
               (shr_record_of_loc (Zpos (mantissa_of p)) l, Zpos (Pos.size p) - 53)).
  { intros l. unfold shr_fexp.
    change (Zdigits2 (Zpos (mantissa_of p))) with (Zpos (digits2_pos (mantissa_of p))).
    rewrite (digits2_pos_size (mantissa_of p)), Hm.
    replace (fexp prec emax (53 + (Zpos (Pos.size p) - 53)) - (Zpos (Pos.size p) - 53)) with 0.
    - reflexivity.
    - unfold fexp, SpecFloat.emin, prec, emax. pose proof (Pos2Z.is_pos (Pos.size p)). lia. }
  rewrite Hs. cbn [shr_record_of_loc shr_m loc_of_shr_record round_nearest_even].
  rewrite Hs. cbn [shr_record_of_loc shr_m].
  replace (Zpos (Pos.size p) - 53 <=? emax - prec) with true; [reflexivity |].
  symmetry. apply Z.leb_le. unfold emax, prec. lia.
Qed.

Lemma size_le_53 (p : positive) : Zpos p < 2 ^ 53 -> Zpos (Pos.size p) <= 53.
Proof.
  intros H. pose proof (Pos.size_le p) as Hle.
  destruct (Z.le_gt_cases (Zpos (Pos.size p)) 53) as [|Hgt]; [done |].
  exfalso.
  assert (2 ^ 54 <= 2 ^ Zpos (Pos.size p)) by (apply Z.pow_le_mono_r; lia).
  assert (Zpos (2 ^ Pos.size p) <= Zpos p~0) by exact Hle.
  rewrite Pos2Z.inj_pow in H1. change (2 ^ 54) with (2 * 2 ^ 53) in H0. lia.
Qed.

Lemma binary_normalize_exact (z : Z) :
  0 <= z < 2 ^ 53 -> binary_normalize prec emax z 0 false = exact_binary64 z.
Proof.
  intros [H0 H]. destruct z as [|p|p]; [done | | lia].
  cbn [binary_normalize exact_binary64]. now apply binary_round_small, size_le_53.
Qed.

Lemma valid_exact_binary64 (z : Z) :
  0 <= z < 2 ^ 53 -> valid_binary (exact_binary64 z) = true.
Proof.
  intros [H0 H]. destruct z as [|p|p]; [done | | lia].
  cbn [exact_binary64 valid_binary]. unfold bounded, canonical_mantissa.
  pose proof (size_le_53 p H) as Hs.
  rewrite digits2_pos_size, (size_mantissa_of p Hs).
  apply andb_true_intro. split.
  - apply Z.eqb_eq. unfold fexp, SpecFloat.emin, prec, emax.
    pose proof (Pos2Z.is_pos (Pos.size p)). lia.
  - apply Z.leb_le. unfold emax, prec. lia.
Qed.

Lemma Prim2SF_float_of_Z (z : Z) :
  0 <= z < 2 ^ 53 -> Prim2SF (float_of_Z z) = exact_binary64 z.
Proof.
  intros H. unfold float_of_Z. rewrite binary_normalize_exact by done.
  now apply Prim2SF_SF2Prim, valid_exact_binary64.
Qed.

Lemma size_lt_lt (p q : positive) :
  Zpos (Pos.size p) < Zpos (Pos.size q) -> Zpos p < Zpos q.
Proof.
  intros H. pose proof (Pos.size_gt p) as Hp. pose proof (Pos.size_le q) as Hq.
  assert (Hp' : Zpos p < 2 ^ Zpos (Pos.size p))
    by (rewrite <- (Pos2Z.inj_pow 2); exact Hp).
  assert (Hq' : 2 ^ Zpos (Pos.size q) <= 2 * Zpos q)
    by (rewrite <- (Pos2Z.inj_pow 2); exact Hq).
  assert (2 * 2 ^ Zpos (Pos.size p) <= 2 ^ Zpos (Pos.size q)).
  { rewrite <- Z.pow_succ_r by lia. apply Z.pow_le_mono_r; lia. }
  lia.
Qed.

Lemma SFcompare_exact (a b : Z) :
  0 <= a < 2 ^ 53 -> 0 <= b < 2 ^ 53 ->
  SFcompare (exact_binary64 a) (exact_binary64 b) = Some (a ?= b).
Proof.
  intros [Ha0 Ha] [Hb0 Hb].
  destruct a as [|p|p], b as [|q|q]; try lia; try reflexivity.
  cbn [exact_binary64 SFcompare].
  pose proof (size_le_53 p Ha) as Hp. pose proof (size_le_53 q Hb) as Hq.
  f_equal.
  destruct (Z.compare_spec (Zpos (Pos.size p) - 53) (Zpos (Pos.size q) - 53))
    as [He | He | He].
  - assert (Hs : Zpos (Pos.size p) = Zpos (Pos.size q)) by lia.
    change (Pos.compare_cont Eq (mantissa_of p) (mantissa_of q))
      with (Zpos (mantissa_of p) ?= Zpos (mantissa_of q)).
    rewrite !mantissa_of_value, Hs by done.
    assert (Hk : 0 < 2 ^ (53 - Zpos (Pos.size q))) by (apply Z.pow_pos_nonneg; lia).
    destruct (Z.compare_spec (Zpos p) (Zpos q)) as [Hc | Hc | Hc].
    + rewrite Hc. apply Z.compare_refl.
    + apply Z.compare_lt_iff. nia.
    + apply Z.compare_gt_iff. nia.
  - symmetry. apply Z.compare_lt_iff. apply size_lt_lt. lia.
  - symmetry. apply Z.compare_gt_iff. apply size_lt_lt. lia.
Qed.

Lemma leb_float_of_Z (a b : Z) :
  0 <= a < 2 ^ 53 -> 0 <= b < 2 ^ 53 ->
  PrimFloat.leb (float_of_Z a) (float_of_Z b) = (a <=? b).
Proof.
  intros Ha Hb. rewrite FloatAxioms.leb_spec, !Prim2SF_float_of_Z by done.
  unfold SFleb. rewrite SFcompare_exact by done. unfold Z.leb.
  now destruct (a ?= b).
Qed.

Lemma is_nan_float_of_Z (a : Z) :
  0 <= a < 2 ^ 53 -> is_nan (float_of_Z a) = false.
Proof.
  intros Ha. unfold is_nan. rewrite FloatAxioms.eqb_spec, !Prim2SF_float_of_Z by done.
  unfold SFeqb. rewrite SFcompare_exact by done. now rewrite Z.compare_refl.
Qed.

Lemma is_infinity_float_of_Z (a : Z) :
  0 <= a < 2 ^ 53 -> is_infinity (float_of_Z a) = false.
Proof.
  intros Ha. unfold is_infinity. rewrite FloatAxioms.eqb_spec, FloatAxioms.abs_spec, Prim2SF_float_of_Z by done.
  change (Prim2SF infinity) with (S754_infinity false).
  destruct Ha as [H0 H]. now destruct a.
Qed.

Local Close Scope Z_scope.

(** *** The closest time *)

Lemma first_minimum_snoc_lt (pre : list Z) (best_i : nat) (best x : Z) :
  first_minimum pre best_i -> pre !! best_i = Some best -> (x < best)%Z ->
  first_minimum (pre ++ [x]) (length pre).
Proof.
  intros (m & Hm & Hle & _) Hb Hx.
  assert (m = best) by congruence. subst m.
  exists x. split; [| split].
  - now rewrite lookup_app_r, Nat.sub_diag by lia.
  - intros k y Hk. apply lookup_app_Some in Hk as [Hk | [_ Hk]].
    + apply Hle in Hk. lia.
    + destruct (k - length pre); simpl in Hk; [| done]. injection Hk as <-. lia.
  - intros k y Hlt Hk. rewrite lookup_app_l in Hk by done.
    apply Hle in Hk. lia.
Qed.

Lemma first_minimum_snoc_ge (pre : list Z) (best_i : nat) (best x : Z) :
  first_minimum pre best_i -> pre !! best_i = Some best -> (best <= x)%Z ->
  first_minimum (pre ++ [x]) best_i.
Proof.
  intros (m & Hm & Hle & Hlt) Hb Hx.
  assert (m = best) by congruence. subst m.
  assert (Hi : best_i < length pre) by (now apply lookup_lt_Some in Hb).
  exists best. split; [| split].
  - now rewrite lookup_app_l.
  - intros k y Hk. apply lookup_app_Some in Hk as [Hk | [_ Hk]].
    + now apply Hle in Hk.
    + destruct (k - length pre); simpl in Hk; [| done]. injection Hk as <-. lia.
  - intros k y Hk1 Hk. rewrite lookup_app_l in Hk by lia. eauto.
Qed.

Lemma float_of_int_exact (z : Z) :
  (0 <= z < 2 ^ 53)%Z -> float_of_int z = Ok (float_of_Z z).
Proof. intros H. unfold float_of_int. now rewrite is_infinity_float_of_Z. Qed.

Lemma float_slots_exact (values : list Z) :
  Forall (fun z => (0 <= z < 2 ^ 53)%Z) values ->
  float_slots values = Ok (map float_of_Z values).
Proof.
  induction 1 as [|z rest Hz _ IH]; [done |].
  cbn [float_slots map]. rewrite float_of_int_exact by done.
  cbn [mbind result_bind]. now rewrite IH.
Qed.

Lemma argmin_from_first_minimum (rest : list Z) :
  forall (pre : list Z) (best_i : nat) (best : Z),
    Forall (fun z => (0 <= z < 2 ^ 53)%Z) rest -> (0 <= best < 2 ^ 53)%Z ->
    first_minimum pre best_i -> pre !! best_i = Some best ->
    first_minimum (pre ++ rest)
      (argmin_from best_i (float_of_Z best) (length pre) (map float_of_Z rest)).
Proof.
  induction rest as [|x rest IH]; intros pre best_i best Hrest Hbest Hmin Hb;
    cbn [map argmin_from].
  - now rewrite app_nil_r.
  - apply Forall_cons in Hrest as [Hx Hrest].
    replace (pre ++ x :: rest) with ((pre ++ [x]) ++ rest)
      by now rewrite <- app_assoc.
    replace (S (length pre)) with (length (pre ++ [x]))
      by (rewrite length_app; simpl; lia).
    rewrite leb_float_of_Z, is_nan_float_of_Z by done.
    destruct (Z.leb_spec best x) as [Hle | Hlt].
    + apply IH; try done.
      * eapply first_minimum_snoc_ge; eauto.
      * now apply lookup_app_l_Some.
    + apply IH; try done.
      * eapply first_minimum_snoc_lt; eauto.
      * rewrite lookup_app_r by lia. now rewrite Nat.sub_diag.
Qed.

Lemma argmin_first_minimum (a : list Z) :
  a <> [] -> Forall (fun z => (0 <= z < 2 ^ 53)%Z) a ->
  exists i, argmin (map float_of_Z a) = Ok i /\ first_minimum a i.
Proof.
  destruct a as [|x rest]; [done |]. intros _ Ha.
  apply Forall_cons in Ha as [Hx Hrest].
  exists (argmin_from 0 (float_of_Z x) 1 (map float_of_Z rest)). split.
  - cbn [map argmin]. now rewrite is_nan_float_of_Z.
  - apply (argmin_from_first_minimum rest [x] 0 x); try done.
    exists x. split; [done |]. split.
    + intros [|k] y Hk; simpl in Hk; [injection Hk as <-; lia | done].
    + intros k y Hk. lia.
Qed.

Lemma closest_time_index_first_minimum (image_time : Z) (times : list Z) :
  times <> [] ->
  Forall (fun t => (Z.abs (image_time - t) < 2 ^ 53)%Z) times ->
  exists i,
    closest_time_index image_time times = Ok i /\
    first_minimum (map (fun t => Z.abs (image_time - t)) times) i.
Proof.
  intros Hne Hsmall.
  assert (Hdiffs : Forall (fun z => (0 <= z < 2 ^ 53)%Z)
                     (map (fun t => Z.abs (image_time - t)) times)).
  { clear Hne. induction Hsmall as [|t rest Ht _ IH]; constructor; [| exact IH].
    split; [apply Z.abs_nonneg | exact Ht]. }
  destruct (argmin_first_minimum (map (fun t => Z.abs (image_time - t)) times))
    as (i & Hi & Hmin); [now destruct times | done |].
  exists i. split; [| done].
  unfold closest_time_index. rewrite float_slots_exact by done.
  cbn [mbind result_bind]. exact Hi.
Qed.

(** C8, as the claim states it, fails: for the image time 0 and the times
    [2^53 + 1] and [2^53] the matcher returns the index 0, although the
    entry at index 1 is closer: both differences are stored as the same
    [float64]. *)
Lemma closest_time_index_rounds_differences :
  closest_time_index 0 [9007199254740993; 9007199254740992]%Z = Ok 0 /\
  (Z.abs (0 - 9007199254740992) < Z.abs (0 - 9007199254740993))%Z.
Proof. split; [vm_compute |]; reflexivity. Qed.

(** C8: on a non-empty time sequence whose absolute differences from the
    image time are below [2^53], so that [float64] slots hold them exactly,
    the matcher returns an index [i] whose entry is at minimum absolute
    difference from the image time, every entry before [i] being strictly
    farther (first occurrence of the minimum); an entry equal to the image
    time makes [i] the earliest such entry, hence that entry's index when
    it is the only one; and the index is the same whatever the window size
    given to the mean. *)
Theorem closest_time_index_stable_argmin (image_time : Z) (time_sequence : list Z) :
  time_sequence <> [] ->
  Forall (fun t => (Z.abs (image_time - t) < 2 ^ 53)%Z) time_sequence ->
  exists i t_i,
    closest_time_index image_time time_sequence = Ok i /\
    time_sequence !! i = Some t_i /\
    (forall k t, time_sequence !! k = Some t ->
       (Z.abs (image_time - t_i) <= Z.abs (image_time - t))%Z) /\
    (forall k t, k < i -> time_sequence !! k = Some t ->
       (Z.abs (image_time - t_i) < Z.abs (image_time - t))%Z) /\
    (forall j, time_sequence !! j = Some image_time ->
       t_i = image_time /\ i <= j /\
       ((forall k, k <> j -> time_sequence !! k <> Some image_time) -> i = j)) /\
    (forall window_size spectrum_matrix,
       compute_mean_spectrum image_time window_size time_sequence spectrum_matrix =
       Ok (mean_axis0
             (Ndarray2 (ncols spectrum_matrix)
                (window_rows i window_size spectrum_matrix)))).
Proof.
  intros Hne Hsmall.
  destruct (closest_time_index_first_minimum image_time time_sequence Hne Hsmall)
    as (i & Hi & m & Hm & Hle & Hlt).
  change (map (fun t => Z.abs (image_time - t)) time_sequence)
    with ((fun t => Z.abs (image_time - t)) <$> time_sequence) in *.
  rewrite list_lookup_fmap in Hm.
  destruct (time_sequence !! i) as [t_i|] eqn:Hti; [| done].
  injection Hm as <-.
  assert (Hle' : forall k t, time_sequence !! k = Some t ->
            (Z.abs (image_time - t_i) <= Z.abs (image_time - t))%Z).
  { intros k t Hk. apply (Hle k). now rewrite list_lookup_fmap, Hk. }
  assert (Hlt' : forall k t, k < i -> time_sequence !! k = Some t ->
            (Z.abs (image_time - t_i) < Z.abs (image_time - t))%Z).
  { intros k t Hki Hk. apply (Hlt k); [done |]. now rewrite list_lookup_fmap, Hk. }
  exists i, t_i. repeat split; try done.
  - pose proof (Hle' _ _ H). lia.
  - destruct (Nat.le_gt_cases i j) as [|Hji]; [done |].
    pose proof (Hlt' _ _ Hji H). lia.
  - intros Huniq. destruct (Nat.eq_dec i j) as [|Hij]; [done |].
    exfalso. apply (Huniq i Hij). rewrite Hti. f_equal.
    pose proof (Hle' _ _ H). lia.
  - intros n spectra. unfold compute_mean_spectrum. now rewrite Hi.
Qed.

Lemma closest_time_index_stable_argmin_witness :
  exists i t_i,
    closest_time_index 123849 [123839; 123844; 123854; 123849; 123849]%Z = Ok i /\
    [123839; 123844; 123854; 123849; 123849]%Z !! i = Some t_i /\
    (forall k t, [123839; 123844; 123854; 123849; 123849]%Z !! k = Some t ->
       (Z.abs (123849 - t_i) <= Z.abs (123849 - t))%Z) /\
    (forall k t, k < i -> [123839; 123844; 123854; 123849; 123849]%Z !! k = Some t ->
       (Z.abs (123849 - t_i) < Z.abs (123849 - t))%Z) /\
    (forall j, [123839; 123844; 123854; 123849; 123849]%Z !! j = Some 123849%Z ->
       t_i = 123849%Z /\ i <= j /\
       ((forall k, k <> j ->
           [123839; 123844; 123854; 123849; 123849]%Z !! k <> Some 123849%Z) -> i = j)) /\
    (forall window_size spectrum_matrix,
       compute_mean_spectrum 123849 window_size
         [123839; 123844; 123854; 123849; 123849]%Z spectrum_matrix =
       Ok (mean_axis0
             (Ndarray2 (ncols spectrum_matrix)
                (window_rows i window_size spectrum_matrix)))).
Proof.
  apply (closest_time_index_stable_argmin 123849
           [123839; 123844; 123854; 123849; 123849]%Z).
  - discriminate.
  - repeat (constructor; [reflexivity |]). constructor.
Defined.

Example closest_time_index_tie : closest_time_index 15 [20; 10; 10]%Z = Ok 0.
Proof. vm_compute. reflexivity. Qed.
(** ** Reflectance computation *)

Lemma broadcast_len_same (n : nat) : broadcast_len n n = Ok n.
Proof. unfold broadcast_len. now rewrite Nat.eqb_refl. Qed.

Lemma broadcast_row_same (f : float -> float -> float) (xs ys : list float) :
  length xs = length ys -> broadcast_row f xs ys = zip_with f xs ys.
Proof. intros H. unfold broadcast_row. now rewrite H, Nat.eqb_refl. Qed.

Lemma broadcast2_same (f : float -> float -> float) (xs ys : list float) :
  length xs = length ys -> broadcast2 f xs ys = Ok (zip_with f xs ys).
Proof.
  intros H. unfold broadcast2.
  rewrite broadcast_row_same by done. now rewrite H, broadcast_len_same.
Qed.

Lemma item3_rollaxis_2_0 (a : ndarray3) (b r c : nat) :
  b < dim2 a ->
  item3 (rollaxis_2_0 a) b r c =
  (plane ← cells a !! r; px ← plane !! c; Some (nth b px 0%float)).
Proof.
  intros Hb. unfold item3, rollaxis_2_0. simpl.
  change (map ?f ?l) with (f <$> l).
  rewrite list_lookup_fmap, lookup_seq_lt by done. simpl.
  change (map ?f ?l) with (f <$> l).
  rewrite list_lookup_fmap. destruct (cells a !! r) as [plane|]; simpl; [| done].
  change (map ?f ?l) with (f <$> l).
  rewrite list_lookup_fmap. now destruct (plane !! c).
Qed.

Lemma wf_ndarray3_pixel (a : ndarray3) (r c : nat) :
  wf_ndarray3 a -> r < dim0 a -> c < dim1 a ->
  exists plane px,
    cells a !! r = Some plane /\ plane !! c = Some px /\ length px = dim2 a.
Proof.
  intros [Hlen Hwf] Hr Hc.
  destruct (lookup_lt_is_Some_2 (cells a) r) as [plane Hp]; [lia |].
  pose proof (proj1 (Forall_lookup _ _) Hwf r plane Hp) as [Hpl Hlines].
  destruct (lookup_lt_is_Some_2 plane c) as [px Hpx]; [lia |].
  pose proof (proj1 (Forall_lookup _ _) Hlines c px Hpx) as Hpxl.
  now exists plane, px.
Qed.

(** C1: when the gain, bias and projected spectrum have the band length of
    the raw cube, the reflectance is computed, its shape is the raw shape
    with the band axis moved to the front, and the cell of band [b], row
    [r], column [c] is the raw cell [r, c, b] divided by
    [gain[b] * projected_spectrum[b] + bias[b]]; on raw cells 4, gain 1,
    bias 0 and spectrum 2 every cell of the result is 2. *)
Theorem compute_reflectance_elementwise (raw_dn : ndarray3)
    (projected_spectrum gain bias : list float) :
  wf_ndarray3 raw_dn ->
  length projected_spectrum = dim2 raw_dn ->
  length gain = dim2 raw_dn ->
  length bias = dim2 raw_dn ->
  (exists out,
     compute_reflectance raw_dn projected_spectrum gain bias = Ok out /\
     dim0 out = dim2 raw_dn /\ dim1 out = dim0 raw_dn /\ dim2 out = dim1 raw_dn /\
     forall b r c, b < dim2 raw_dn -> r < dim0 raw_dn -> c < dim1 raw_dn ->
       exists x g s o,
         item3 raw_dn r c b = Some x /\ gain !! b = Some g /\
         projected_spectrum !! b = Some s /\ bias !! b = Some o /\
         item3 out b r c = Some (x / (g * s + o))%float) /\
  compute_reflectance cube_of_fours [2; 2; 2]%float [1; 1; 1]%float [0; 0; 0]%float =
    Ok cube_of_twos.
Proof.
  intros Hwf Hs Hg Hb. split; [| vm_compute; reflexivity].
  unfold compute_reflectance.
  rewrite broadcast2_same by congruence. simpl.
  assert (Hscaled : length (zip_with PrimFloat.mul gain projected_spectrum) = dim2 raw_dn).
  { rewrite length_zip_with. lia. }
  rewrite broadcast2_same by congruence. simpl.
  set (irrad2dn := zip_with PrimFloat.add (zip_with PrimFloat.mul gain projected_spectrum) bias).
  assert (Hirr : length irrad2dn = dim2 raw_dn).
  { unfold irrad2dn. rewrite length_zip_with. lia. }
  unfold divide3. rewrite Hirr, broadcast_len_same. simpl.
  eexists. split; [reflexivity |]. simpl. repeat split.
  intros b r c Hbb Hr Hc.
  destruct (wf_ndarray3_pixel raw_dn r c Hwf Hr Hc) as (plane & px & Hp & Hpx & Hpxl).
  destruct (lookup_lt_is_Some_2 px b) as [x Hx]; [lia |].
  destruct (lookup_lt_is_Some_2 gain b) as [g Hgb]; [lia |].
  destruct (lookup_lt_is_Some_2 projected_spectrum b) as [s Hsb]; [lia |].
  destruct (lookup_lt_is_Some_2 bias b) as [o Hob]; [lia |].
  exists x, g, s, o. repeat split; try done.
  - unfold item3. now rewrite Hp; simpl; rewrite Hpx.
  - rewrite item3_rollaxis_2_0 by done. simpl.
    change (map ?f ?l) with (f <$> l).
    rewrite list_lookup_fmap, Hp. simpl.
    change (map ?f ?l) with (f <$> l).
    rewrite list_lookup_fmap, Hpx. simpl. f_equal.
    rewrite broadcast_row_same by congruence.
    apply nth_lookup_Some.
    rewrite lookup_zip_with, Hx. simpl.
    unfold irrad2dn. rewrite !lookup_zip_with, Hgb, Hsb, Hob. done.
Qed.

Lemma compute_reflectance_elementwise_witness :
  (exists out,
     compute_reflectance cube_of_fours [2; 2; 2]%float [1; 1; 1]%float [0; 0; 0]%float
       = Ok out /\
     dim0 out = 3 /\ dim1 out = 2 /\ dim2 out = 2 /\
     forall b r c, b < 3 -> r < 2 -> c < 2 ->
       exists x g s o,
         item3 cube_of_fours r c b = Some x /\ [1; 1; 1]%float !! b = Some g /\
         [2; 2; 2]%float !! b = Some s /\ [0; 0; 0]%float !! b = Some o /\
         item3 out b r c = Some (x / (g * s + o))%float) /\
  compute_reflectance cube_of_fours [2; 2; 2]%float [1; 1; 1]%float [0; 0; 0]%float =
    Ok cube_of_twos.
Proof.
  apply (compute_reflectance_elementwise cube_of_fours
           [2; 2; 2]%float [1; 1; 1]%float [0; 0; 0]%float);
    try reflexivity.
  split; [reflexivity |].
  repeat constructor.
Defined.

(** ** Window of the mean spectrum *)

(** C3, evaluated.  For a VNIR scan of 2019-03-01 the scan lasts 210 s, so
    that a window of scan time / 5 has 42 rows; [apply_calibration] takes the
    third field of the tuple, the irradiance band count 3648, for the scan
    time and averages the rows [ind, ind + 729 - 1), that is 728 rows, or
    all the rows from [ind] on when there are fewer.  On [series_log],
    whose 101 rows hold their index, the mean is 50 and not the 20.5 of
    the first 42 rows, and the reflectance written for raw cells 100 is
    100 / 50 = 2. *)
Example mean_spectrum_window_vnir_new :
  get_camera_info "VNIR" "2019-03-01" = ("vnir_new", Some 939, Some 3648, Some 210)%Z /\
  num_irridiance_record_of 3648 = 729%Z /\
  window_rows 0 (num_irridiance_record_of 3648) long_spectra =
    firstn 728 (rows long_spectra) /\
  read_envlog_folder "vnir_new" 3648 [("a_environmentlogger.json", Ok series_log)] =
    Ok (series_times, series_spectra) /\
  closest_time_index 100000 series_times = Ok 0 /\
  compute_mean_spectrum 100000 (num_irridiance_record_of 3648)
    series_times series_spectra = Ok (repeat 50%float 3648) /\
  mean_axis0 (Ndarray2 3648 (firstn 42 (rows series_spectra))) = repeat 20.5%float 3648 /\
  (flat ∘ data <$>
     (apply_calibration f4_fill zero_cast
        (vnir_filesystem [("a_environmentlogger.json", Ok series_log)])
        "scan_raw" "VNIR" "2019-03-01" "2019-03-01T10:00:00-07:00"
      ≫= fun written => get_var written "rfl_img")) = Ok (repeat 2%float 939).
Proof. repeat apply conj; vm_compute; reflexivity. Qed.

(** ** Spectra read from a logger file *)

(** C5, evaluated.  For [swir_new] both rows of the returned matrix hold
    the spectrum of record 0, although record 1 carries [20; 21]; for
    another camera type each row is the spectrum of its own record. *)
Example irradiance_time_extractor_swir_new_rows :
  irradiance_time_extractor "swir_new" (Ok two_readings_log) =
    Ok ([123849; 123854]%Z, Ndarray2 2 [[10; 11]; [10; 11]]%float) /\
  (getindex (JArr [reading_of "2019.03.01-12:38:49" [1]%float [10; 11]%float;
                   reading_of "2019.03.01-12:38:54" [2]%float [20; 21]%float]) 1
   ≫= fun reading => getitem reading "spectrometers"
   ≫= fun s => getitem s "NIRQuest-512"
   ≫= fun s => getitem s "spectrum") = Ok (JArr [JFloat 20; JFloat 21]) /\
  irradiance_time_extractor "vnir_new" (Ok two_readings_log) =
    Ok ([123849; 123854]%Z, Ndarray2 1 [[1]; [2]]%float).
Proof. vm_compute. repeat split. Qed.

(** ** Empty irradiance series *)

Lemma get_needed_files_endswith (source_files : list string) (raw_file : string) :
  get_needed_files source_files = Some raw_file -> endswith raw_file "_raw" = true.
Proof.
  induction source_files as [|x l IH] using rev_ind; [done |].
  rewrite get_needed_files_snoc.
  destruct (endswith x "_raw") eqn:Hx; [| exact IH].
  now intros [= <-].
Qed.

Lemma get_needed_files_truthy (source_files : list string) (raw_file : string) :
  get_needed_files source_files = Some raw_file -> truthy (Some raw_file) = true.
Proof.
  intros H. apply get_needed_files_endswith in H. now destruct raw_file.
Qed.

Lemma int_of_str_raises (s : string) (e : exception) :
  int_of_str s = Raise e -> exception_cls e = ValueError.
Proof.
  unfold int_of_str.
  destruct (match lstrip s with
            | String "-"%char s' => Z.opp <$> int_digits 0 false s'
            | String "+"%char s' => int_digits 0 false s'
            | _ => int_digits 0 false (lstrip s)
            end); [discriminate |].
  unfold raise. now intros [= <-].
Qed.

(** C6: when a raw file was selected, the logger folder exists, the memory
    check passes or is skipped, the header and the raw image load, the
    camera is one that is calibrated and the logger folder yields an empty
    time sequence, no mean spectrum is produced: [apply_calibration] raises
    a [ValueError] before [update_netcdf] is reached, which is the
    empty-series error of [np.argmin] whenever the request time stamp
    parses, and [perform_process] returns the code -1004 with the message of
    the exception and no rewritten file. *)
Theorem empty_time_sequence_is_reported (default_fillvals : string -> float)
    (undefined_cast : string -> float -> float) (fs : filesystem) (req : request) (raw_filename camera_type : string)
    (num_spectral_bands num_bands_irradiance image_scanning_time : option Z)
    (img_dn : ndarray3) (num_columns : nat) (envlog_spectra : ndarray2) :
  get_needed_files (list_files req) = Some raw_filename ->
  isdir_environment_logger fs = true ->
  skip_memory_check req = true \/ check_raw_file_size fs raw_filename = None ->
  hdr_exists fs = true ->
  raw_image fs = Ok img_dn ->
  get_camera_info (sensor req) (data_date_of req) =
    (camera_type, num_spectral_bands, num_bands_irradiance, image_scanning_time) ->
  camera_type <> "swir_old_middle" ->
  extent_of num_bands_irradiance = Ok num_columns ->
  read_envlog_folder camera_type num_columns (envlog_folder fs) =
    Ok ([], envlog_spectra) ->
  (forall image_time window_size spectrum_matrix,
     compute_mean_spectrum image_time window_size [] spectrum_matrix =
     Raise EmptySeries) /\
  exists ex,
    apply_calibration default_fillvals undefined_cast fs raw_filename (sensor req)
      (data_date_of req) (timestamp req) = Raise ex /\
    exception_cls ex = ValueError /\
    (forall image_time,
       int_of_str (replace ":"%char "" (get_local_time (timestamp req))) = Ok image_time ->
       ex = EmptySeries) /\
    perform_process default_fillvals undefined_cast fs req =
      (Outcome (-1004)
         (Some ("Exception caught while applying calibration: " +:+ str_exception ex)),
       None).
Proof.
  intros Hraw Hdir Hmem Hhdr Himg Hcam Hcal Hcols Hlogs.
  split; [reflexivity |].
  assert (Heqb : String.eqb camera_type "swir_old_middle" = false)
    by now apply String.eqb_neq.
  assert (Happ : exists ex,
            apply_calibration default_fillvals undefined_cast fs raw_filename (sensor req)
              (data_date_of req) (timestamp req) = Raise ex /\
            exception_cls ex = ValueError /\
            (forall image_time,
               int_of_str (replace ":"%char "" (get_local_time (timestamp req)))
                 = Ok image_time -> ex = EmptySeries)).
  { unfold apply_calibration. rewrite Hcam, Hhdr. simpl negb. cbv iota.
    rewrite Himg. simpl mbind. unfold result_bind at 1. rewrite Heqb.
    rewrite Hcols. unfold mbind at 1, result_bind at 1.
    rewrite Hlogs. unfold mbind at 1, result_bind at 1.
    destruct (int_of_str (replace ":"%char "" (get_local_time (timestamp req))))
      as [image_time | e] eqn:Hint.
    - exists EmptySeries. repeat split.
    - exists e. split; [reflexivity |]. split; [| discriminate].
      eapply int_of_str_raises; eauto. }
  destruct Happ as (ex & Hex & Hcls & Hempty).
  exists ex. repeat split; try done.
  unfold perform_process. rewrite Hraw.
  rewrite (get_needed_files_truthy _ _ Hraw). simpl negb. cbv iota.
  rewrite Hdir. simpl negb. cbv iota.
  assert (Hmsg : truthy (if negb (skip_memory_check req)
                         then check_raw_file_size fs (default "" (Some raw_filename))
                         else None) = false).
  { destruct Hmem as [-> | Hm]; [done |].
    simpl default. rewrite Hm. now destruct (negb _). }
  rewrite Hmsg. simpl default. now rewrite Hex.
Qed.

Lemma empty_time_sequence_is_reported_witness :
  perform_process f4_fill zero_cast
    (vnir_filesystem [("notes.txt", raise OSError "not a logger file")]) vnir_request =
  (Outcome (-1004)
     (Some "Exception caught while applying calibration: attempt to get argmin of an empty sequence"),
   None).
Proof.
  destruct (empty_time_sequence_is_reported f4_fill zero_cast
              (vnir_filesystem [("notes.txt", raise OSError "not a logger file")])
              vnir_request "scan_raw" "vnir_new" (Some 939%Z) (Some 3648%Z) (Some 210%Z)
              (Ndarray3 1 1 939 [[repeat 100%float 939]]) 3648 (Ndarray2 3648 []))
    as (_ & ex & _ & _ & Hempty & Hrun);
    [ reflexivity | reflexivity | now right | reflexivity | reflexivity
    | reflexivity | discriminate | reflexivity | reflexivity | ].
  rewrite Hrun, (Hempty 100000%Z eq_refl). reflexivity.
Defined.


(** ** File rewriting *)

(** *** Association lists *)

Lemma assoc_app {A} (key : string) (l l' : list (string * A)) :
  assoc key (l ++ l') =
  match assoc key l with
  | Some v => Some v
  | None => assoc key l'
  end.
Proof.
  induction l as [|[k v] l IH]; simpl; [done |].
  now destruct (String.eqb k key).
Qed.

Lemma assoc_map_snd {A B} (f : A -> B) (key : string) (l : list (string * A)) :
  assoc key (map (fun '(n, x) => (n, f x)) l) = f <$> assoc key l.
Proof.
  induction l as [|[k v] l IH]; simpl; [done |].
  now destruct (String.eqb k key).
Qed.

Lemma assoc_set_var_ne (k name : string) (v : ncvariable)
    (vars : list (string * ncvariable)) :
  k <> name -> assoc k (set_var name v vars) = assoc k vars.
Proof.
  intros Hk. induction vars as [|[k' w] vars IH]; [done |]. cbn [set_var].
  destruct (String.eqb_spec k' name) as [-> | Hne]; cbn [assoc].
  - destruct (String.eqb_spec name k); [congruence | done].
  - now rewrite IH.
Qed.

Lemma assoc_set_var_eq (name : string) (v w : ncvariable)
    (vars : list (string * ncvariable)) :
  assoc name vars = Some w -> assoc name (set_var name v vars) = Some v.
Proof.
  induction vars as [|[k' u] vars IH]; [done |]. cbn [set_var assoc].
  destruct (String.eqb_spec k' name) as [-> | Hne]; cbn [assoc].
  - now rewrite String.eqb_refl.
  - apply String.eqb_neq in Hne. now rewrite Hne.
Qed.

(** *** Arrays in row-major order *)

Lemma length_concat_uniform {A} (s : nat) (l : list (list A)) :
  Forall (fun x => length x = s) l -> length (concat l) = length l * s.
Proof.
  induction 1 as [|x l Hx _ IH]; simpl; [done |].
  rewrite length_app, IH, Hx. lia.
Qed.

Lemma chunk_of_concat {A} (s : nat) (l : list (list A)) (rest : list A) :
  Forall (fun x => length x = s) l ->
  forall i x, l !! i = Some x -> firstn s (skipn (i * s) (concat l ++ rest)) = x.
Proof.
  induction 1 as [|y l Hy _ IH]; intros i x Hi; [done |].
  simpl concat. rewrite <- app_assoc. destruct i as [|i]; simpl in Hi.
  - injection Hi as <-. simpl. now apply take_app_length'.
  - replace (S i * s) with (length y + i * s) by (rewrite Hy; lia).
    rewrite drop_app_add'; [| done]. now apply IH.
Qed.

Lemma wf_ndarray3_planes (a : ndarray3) :
  wf_ndarray3 a ->
  Forall (fun x : list float => length x = dim1 a * dim2 a)
    (map (@concat float) (cells a)).
Proof.
  intros [_ Hwf]. apply Forall_map. eapply Forall_impl; [exact Hwf |].
  intros plane [Hp Hlines]. cbn beta.
  now rewrite (length_concat_uniform (dim2 a) plane Hlines), Hp.
Qed.

Lemma length_rolled_array (a : ndarray3) :
  wf_ndarray3 a -> length (ma_cells (rolled_array a)) = dim0 a * (dim1 a * dim2 a).
Proof.
  intros Hwf. unfold rolled_array. cbn [ma_cells].
  rewrite (length_concat_uniform _ _ (wf_ndarray3_planes a Hwf)), length_map.
  now destruct Hwf as [-> _].
Qed.

Lemma length_indices (shp : list nat) : length (indices shp) = prod_list shp.
Proof.
  induction shp as [|n shp IH]; [done |]. cbn [indices prod_list fold_right].
  rewrite flat_map_concat_map.
  rewrite (length_concat_uniform (prod_list shp)).
  - now rewrite length_map, length_seq.
  - apply Forall_map, Forall_forall. intros i _. cbn. now rewrite length_map.
Qed.

Lemma chunks_in_a_row {A} (size : nat) (l : list A) (n : nat) :
  forall base,
    flat_map (fun i => firstn size (skipn (base + i * size) l)) (seq 0 n) =
    firstn (n * size) (skipn base l).
Proof.
  induction n as [|n IH]; intros base; [done |].
  rewrite seq_S, flat_map_app, IH. cbn [flat_map]. rewrite app_nil_r, Nat.add_0_l.
  replace (S n * size) with (n * size + size) by lia.
  rewrite <- (take_take_drop (skipn base l) (n * size) size).
  do 2 f_equal. now rewrite drop_drop.
Qed.

Lemma cells_in_a_row {A} (shp : list nat) (l : list A) (d : A) :
  forall base,
    base + prod_list shp <= length l ->
    map (fun idx => nth (base + ravel shp idx) l d) (indices shp) =
    firstn (prod_list shp) (skipn base l).
Proof.
  induction shp as [|n shp IH]; intros base Hlen.
  - cbn [indices map ravel prod_list fold_right] in *. rewrite Nat.add_0_r.
    destruct (skipn base l) as [|x rest] eqn:Hx.
    + apply (f_equal (@length A)) in Hx. rewrite length_skipn in Hx. simpl in Hx. lia.
    + cbn. f_equal.
      rewrite <- (firstn_skipn base l) at 1. rewrite Hx.
      rewrite app_nth2; rewrite length_firstn; [| lia].
      now replace (base - Nat.min base (length l)) with 0 by lia.
  - cbn [indices]. change (prod_list (n :: shp)) with (n * prod_list shp) in *.
    rewrite flat_map_concat_map, concat_map, map_map, <- flat_map_concat_map.
    rewrite <- (chunks_in_a_row (prod_list shp) l n base).
    rewrite !flat_map_concat_map. f_equal. apply map_ext_in. intros i Hi.
    apply in_seq in Hi. rewrite map_map. cbn [ravel].
    rewrite <- (IH (base + i * prod_list shp)) by nia.
    apply map_ext. intros idx. f_equal. lia.
Qed.

Lemma indices_in_shape (shp : list nat) :
  Forall (fun idx => length idx = length shp /\ in_shape shp idx = true) (indices shp).
Proof.
  induction shp as [|n shp IH]; [repeat constructor |].
  cbn [indices]. apply Forall_forall. intros idx Hin.
  apply list_elem_of_In, in_flat_map in Hin as (i & Hi & Hidx).
  apply in_map_iff in Hidx as (idx' & <- & Hidx').
  apply in_seq in Hi. rewrite Forall_forall in IH.
  destruct (IH idx' ltac:(now apply list_elem_of_In)) as [Hlen Hin].
  split; [cbn; now rewrite Hlen |].
  unfold in_shape in *. cbn [zip zip_with forallb]. rewrite Hin.
  now destruct (Nat.ltb_spec i n); [| lia].
Qed.

Lemma slot_tabulated (f : list nat -> float) (n : nat) (rest : list nat) (i : nat) :
  i < n ->
  slot (Ncdata (n :: rest) (map f (indices (n :: rest)))) i =
  map (fun idx => f (i :: idx)) (indices rest).
Proof.
  intros Hi. unfold slot. cbn [shape flat tail indices].
  rewrite flat_map_concat_map, concat_map, map_map.
  rewrite <- (app_nil_r (concat _)).
  apply (chunk_of_concat (prod_list rest) _ []).
  - apply Forall_map, Forall_forall. intros j _. cbn.
    now rewrite !length_map, length_indices.
  - change (map ?g (seq 0 n)) with (g <$> seq 0 n).
    rewrite list_lookup_fmap, lookup_seq_lt by done. cbn. now rewrite map_map.
Qed.

Lemma in_region_from_origin (shp idx : list nat) :
  length idx = length shp -> 
  in_region (repeat 0 (length shp)) shp idx = in_shape shp idx /\
  zip_with Nat.sub idx (repeat 0 (length shp)) = idx.
Proof.
  revert idx. induction shp as [|n shp IH]; intros [|i idx] Hlen; try done.
  injection Hlen as Hlen. destruct (IH idx Hlen) as [H1 H2].
  unfold in_region, in_shape in *. cbn [length repeat zip zip_with forallb].
  rewrite H1, H2, Nat.sub_0_r. split; [| done].
  now rewrite Nat.add_0_l.
Qed.

(** The slots of an array after a region that spans whole slots was
    written. *)
Lemma slot_write_region (n s0 c0 : nat) (rest : list nat) (cells old : list float)
    (i : nat) :
  i < n ->
  length old = n * prod_list rest ->
  length cells = c0 * prod_list rest ->
  slot (write_region (s0 :: repeat 0 (length rest)) (c0 :: rest) cells
          (Ncdata (n :: rest) old)) i =
  if (s0 <=? i) && (i <? s0 + c0)
  then firstn (prod_list rest) (skipn ((i - s0) * prod_list rest) cells)
  else slot (Ncdata (n :: rest) old) i.
Proof.
  intros Hi Hold Hcells. unfold write_region. cbn [shape flat].
  rewrite slot_tabulated by done.
  pose proof (indices_in_shape rest) as Hidx. rewrite Forall_forall in Hidx.
  destruct ((s0 <=? i) && (i <? s0 + c0)) eqn:Hcond.
  - apply andb_prop in Hcond as [H1 H2].
    apply Nat.leb_le in H1. apply Nat.ltb_lt in H2.
    rewrite <- (cells_in_a_row rest cells 0%float) by nia.
    apply map_ext_in. intros idx Hin.
    destruct (Hidx idx ltac:(now apply list_elem_of_In)) as [Hlen Hshape].
    destruct (in_region_from_origin rest idx Hlen) as [Hreg Hsub].
    unfold in_region in *. cbn [zip zip_with forallb].
    rewrite Hreg, Hshape.
    destruct (Nat.leb_spec s0 i); [| lia]. destruct (Nat.ltb_spec i (s0 + c0)); [| lia].
    cbn [andb]. cbn [ravel]. now rewrite Hsub.
  - unfold slot. cbn [shape flat tail].
    rewrite <- (cells_in_a_row rest old 0%float) by nia.
    apply map_ext_in. intros idx Hin.
    unfold in_region. cbn [zip zip_with forallb]. rewrite Hcond. reflexivity.
Qed.

Lemma shape_write_region (start count : list nat) (cells : list float) (d : ncdata) :
  shape (write_region start count cells d) = shape d /\
  length (flat (write_region start count cells d)) = prod_list (shape d).
Proof. unfold write_region. cbn. now rewrite length_map, length_indices. Qed.

(** A region that is the whole array replaces the cells. *)
Lemma write_region_whole (shp : list nat) (cells old : list float) :
  length cells = prod_list shp ->
  write_region (repeat 0 (length shp)) shp cells (Ncdata shp old) = Ncdata shp cells.
Proof.
  intros Hlen. unfold write_region. cbn [shape flat]. f_equal.
  transitivity (firstn (prod_list shp) (skipn 0 cells));
    [| cbn [skipn]; rewrite <- Hlen; apply firstn_all].
  rewrite <- (cells_in_a_row shp cells 0%float 0) by lia.
  apply map_ext_in. intros idx Hin.
  pose proof (indices_in_shape shp) as Hidx. rewrite Forall_forall in Hidx.
  destruct (Hidx idx ltac:(now apply list_elem_of_In)) as [Hl Hshape].
  destruct (in_region_from_origin shp idx Hl) as [Hreg Hsub].
  now rewrite Hreg, Hshape, Hsub.
Qed.

(** *** Dimensions of fixed length *)

Lemma fixed_kept_refl (dims : list (string * dimension)) : fixed_kept dims dims.
Proof. now intros k d. Qed.

Lemma fixed_kept_trans (a b c : list (string * dimension)) :
  fixed_kept a b -> fixed_kept b c -> fixed_kept a c.
Proof. intros Hab Hbc k d Hk Hd. apply Hbc; [| done]. now apply Hab. Qed.

Lemma grow_dims_fixed_kept (names : list string) :
  forall stops dims, fixed_kept dims (grow_dims names stops dims).
Proof.
  induction names as [|n names IH]; intros [|stop stops] dims;
    try apply fixed_kept_refl.
  cbn [grow_dims]. eapply fixed_kept_trans; [| apply IH].
  intros k d Hk Hd. induction dims as [|[k' d'] dims IHd]; [done |].
  cbn [map assoc] in *.
  destruct (String.eqb k' n); cbn [assoc];
    (destruct (String.eqb k' k); [| now apply IHd]).
  - injection Hk as ->. unfold grown. now rewrite Hd.
  - done.
Qed.

Lemma lookup_dims_assoc (ds : dataset) (names : list string) (dl : list dimension) :
  lookup_dims ds names = Ok dl ->
  Forall2 (fun n d => assoc n (ds_dimensions ds) = Some d) names dl.
Proof.
  revert dl. induction names as [|n names IH]; intros dl; cbn [lookup_dims].
  - intros [= <-]. constructor.
  - destruct (assoc n (ds_dimensions ds)) as [d|] eqn:Hd; [| done].
    destruct (lookup_dims ds names) as [dl'|]; [| done].
    cbn [mbind result_bind]. intros [= <-]. constructor; [done | now apply IH].
Qed.

Lemma lookup_dims_fixed_kept (ds ds' : dataset) (names : list string)
    (dl : list dimension) :
  fixed_kept (ds_dimensions ds) (ds_dimensions ds') ->
  lookup_dims ds names = Ok dl ->
  Forall (fun d => isunlimited d = false) dl ->
  lookup_dims ds' names = Ok dl.
Proof.
  intros Hkept. revert dl. induction names as [|n names IH]; intros dl;
    cbn [lookup_dims]; [done |].
  destruct (assoc n (ds_dimensions ds)) as [d|] eqn:Hd; [| done].
  destruct (lookup_dims ds names) as [dl'|]; [| done].
  cbn [mbind result_bind]. intros [= <-] Hfixed.
  apply Forall_cons in Hfixed as [Hd' Hfixed].
  rewrite (Hkept n d Hd Hd'), (IH dl' eq_refl Hfixed). reflexivity.
Qed.

Lemma shape_of_lookup (ds : dataset) (names : list string) (dl : list dimension) :
  lookup_dims ds names = Ok dl ->
  shape_of (ds_dimensions ds) names = map dim_len dl.
Proof.
  intros H. apply lookup_dims_assoc in H. unfold shape_of.
  induction H as [|n d names dl Hn _ IH]; [done |]. cbn [map]. now rewrite Hn, IH.
Qed.

Lemma fixed_shape_lookup (ds : dataset) (w : ncvariable) (dl : list dimension) :
  lookup_dims ds (dimensions w) = Ok dl ->
  Forall (fun d => isunlimited d = false) dl ->
  shape (data w) = map dim_len dl ->
  fixed_shape (ds_dimensions ds) w.
Proof.
  intros Hl Hfixed Hshape. split; [| now rewrite (shape_of_lookup _ _ _ Hl)].
  apply lookup_dims_assoc in Hl. clear Hshape.
  induction Hl as [|n d names dl Hn _ IH]; [constructor |].
  apply Forall_cons in Hfixed as [Hd Hfixed].
  constructor; [now exists d | now apply IH].
Qed.

Lemma fixed_shape_kept (dims dims' : list (string * dimension)) (w : ncvariable) :
  fixed_shape dims w -> fixed_kept dims dims' -> fixed_shape dims' w.
Proof.
  intros [Hnames Hshape] Hkept. split.
  - eapply Forall_impl; [exact Hnames |]. intros n (d & Hd & Hf). cbn beta.
    exists d. split; [now apply Hkept | done].
  - rewrite Hshape. unfold shape_of. clear Hshape.
    induction Hnames as [|n names (d & Hd & Hf) _ IH]; [done |].
    cbn [map]. now rewrite Hd, (Hkept n d Hd Hf), IH.
Qed.

Section Rewriting.

Variable default_fillvals : string -> float.
Variable undefined_cast : string -> float -> float.

Lemma extend_var_fixed (dims : list (string * dimension)) (w : ncvariable) :
  fixed_shape dims w -> extend_var default_fillvals undefined_cast dims w = w.
Proof.
  intros [_ Hshape]. unfold extend_var, extend_data.
  rewrite bool_decide_true by done. now destruct w.
Qed.

(** *** What an assignment leaves alone *)

Lemma setitem_frame (name : string) (elem : list slice) (value : marray)
    (ds ds' : dataset) :
  setitem default_fillvals undefined_cast name elem value ds = Ok ds' ->
  fixed_kept (ds_dimensions ds) (ds_dimensions ds') /\
  forall k w,
    k <> name -> assoc k (ds_variables ds) = Some w ->
    fixed_shape (ds_dimensions ds) w ->
    assoc k (ds_variables ds') = Some w.
Proof.
  unfold setitem.
  destruct (get_var ds name) as [v|]; cbn [mbind result_bind]; [| done].
  destruct (lookup_dims ds (dimensions v)) as [dl|]; cbn [mbind result_bind]; [| done].
  destruct (length _ <? length elem); [done |].
  destruct (slice_extents _ _ _ _) as [extents|]; cbn [mbind result_bind]; [| done].
  destruct (conform _ _ _) as [cells|]; cbn [mbind result_bind]; [| done].
  destruct (prod_list _ =? 0).
  { intros [= <-]. split; [apply fixed_kept_refl | done]. }
  unfold with_var, get_var. cbn [ds_variables ds_dimensions ds_ncattrs].
  destruct (assoc name (map _ (ds_variables ds))) as [w0|]; cbn [mbind result_bind];
    [| done].
  intros [= <-]. unfold put_var. cbn [ds_variables ds_dimensions].
  split; [apply grow_dims_fixed_kept |].
  intros k w Hk Hw Hfixed.
  rewrite assoc_set_var_ne by done.
  rewrite (assoc_map_snd
             (extend_var default_fillvals undefined_cast
                (grow_dims (dimensions v)
                   (zip_with Nat.add (map fst extents) (map snd extents))
                   (ds_dimensions ds)))), Hw.
  cbn [fmap option_fmap option_map]. f_equal.
  apply extend_var_fixed. eapply fixed_shape_kept; [exact Hfixed |].
  apply grow_dims_fixed_kept.
Qed.

(** *** An assignment to a variable over three dimensions of fixed length *)

Lemma setitem_fixed3 (name : string) (elem : list slice) (value : marray)
    (ds ds' : dataset) (w : ncvariable) (n0 n1 n2 : nat)
    (extents : list (nat * nat)) :
  assoc name (ds_variables ds) = Some w ->
  lookup_dims ds (dimensions w) =
    Ok [Dimension n0 false; Dimension n1 false; Dimension n2 false] ->
  shape (data w) = [n0; n1; n2] ->
  length elem <= 3 ->
  slice_extents (ma_shape value) 0
    [Dimension n0 false; Dimension n1 false; Dimension n2 false]
    (elem ++ repeat SliceAll (3 - length elem)) = Ok extents ->
  setitem default_fillvals undefined_cast name elem value ds = Ok ds' ->
  fixed_kept (ds_dimensions ds) (ds_dimensions ds') /\
  exists cells,
    conform value (map snd extents)
      (stored_cells default_fillvals undefined_cast w value) = Ok cells /\
    assoc name (ds_variables ds') =
      Some (set_data w
              (if prod_list (map snd extents) =? 0 then data w
               else write_region (map fst extents) (map snd extents) cells (data w))).
Proof.
  intros Hw Hl Hshape Helem Hext H.
  split; [now apply setitem_frame in H |].
  revert H. unfold setitem, get_var. rewrite Hw. cbn [mbind result_bind].
  rewrite Hl. cbn [mbind result_bind length].
  destruct (Nat.ltb_spec 3 (length elem)) as [| _]; [lia |].
  rewrite Hext. cbn [mbind result_bind].
  destruct (conform _ _ _) as [cells|]; cbn [mbind result_bind]; [| done].
  exists cells. split; [done |]. revert H.
  destruct (prod_list (map snd extents) =? 0).
  { intros [= <-]. rewrite Hw. now destruct w as [? ? ? []]. }
  unfold with_var, get_var. cbn [ds_variables ds_dimensions ds_ncattrs].
  set (dims' := grow_dims _ _ _).
  rewrite (assoc_map_snd (extend_var default_fillvals undefined_cast dims')), Hw.
  cbn [fmap option_fmap option_map mbind result_bind].
  assert (Hfixed : fixed_shape (ds_dimensions ds) w)
    by (apply (fixed_shape_lookup ds w _ Hl); [repeat constructor | done]).
  rewrite extend_var_fixed
    by (eapply fixed_shape_kept; [exact Hfixed | apply grow_dims_fixed_kept]).
  intros [= <-]. unfold put_var. cbn [ds_variables].
  apply (assoc_set_var_eq name _ w).
  rewrite (assoc_map_snd (extend_var default_fillvals undefined_cast dims')), Hw.
  cbn [fmap option_fmap option_map]. f_equal.
  apply extend_var_fixed.
  eapply fixed_shape_kept; [exact Hfixed | apply grow_dims_fixed_kept].
Qed.

Lemma astype_f8 (x : float) : astype undefined_cast "f8" x = x.
Proof. reflexivity. Qed.

Lemma stored_cells_rolled (v : ncvariable) (a : ndarray3) :
  stored_cells default_fillvals undefined_cast v (rolled_array a) =
  map (astype undefined_cast (datatype v)) (ma_cells (rolled_array a)).
Proof.
  unfold stored_cells, rolled_array. cbn [ma_cells ma_mask ma_dtype].
  induction (concat (map (@concat float) (cells a))) as [|x l IH]; [done |].
  cbn [map zip_with]. rewrite IH. f_equal.
  destruct (String.eqb_spec "f8" (datatype v)) as [<- | _]; done.
Qed.

End Rewriting.

(** *** Band slots of the reflectance variable *)

Lemma repeat_replicate {A} (x : A) (n : nat) : repeat x n = replicate n x.
Proof. induction n as [|n IH]; simpl; [done | now rewrite IH]. Qed.

Lemma after_write_shape (n s0 c0 : nat) (rest : list nat) (cells old : list float) :
  length old = n * prod_list rest ->
  exists new,
    after_write n s0 c0 rest cells old = Ncdata (n :: rest) new /\
    length new = n * prod_list rest.
Proof.
  intros Hold. unfold after_write. destruct (prod_list (c0 :: rest) =? 0).
  - now exists old.
  - unfold write_region. cbn [shape flat]. eexists. split; [reflexivity |].
    now rewrite length_map, length_indices.
Qed.

Lemma slot_after_write (n s0 c0 : nat) (rest : list nat) (cells old : list float)
    (i : nat) :
  i < n ->
  length old = n * prod_list rest ->
  length cells = c0 * prod_list rest ->
  slot (after_write n s0 c0 rest cells old) i =
  if (s0 <=? i) && (i <? s0 + c0)
  then firstn (prod_list rest) (skipn ((i - s0) * prod_list rest) cells)
  else slot (Ncdata (n :: rest) old) i.
Proof.
  intros Hi Hold Hcells. unfold after_write.
  destruct (Nat.eqb_spec (prod_list (c0 :: rest)) 0) as [Hzero | _];
    [| now apply slot_write_region].
  destruct ((s0 <=? i) && (i <? s0 + c0)) eqn:Hcond; [| done].
  apply andb_prop in Hcond as [H1 H2].
  apply Nat.leb_le in H1. apply Nat.ltb_lt in H2.
  change (prod_list (c0 :: rest)) with (c0 * prod_list rest) in Hzero.
  assert (Hrest : prod_list rest = 0) by nia.
  unfold slot. cbn [shape tail]. now rewrite Hrest.
Qed.

Lemma legacy_slots (cast : float -> float) (cutoff n0 : nat) (rfl_data : ndarray3)
    (old : list float) :
  wf_ndarray3 rfl_data ->
  dim0 rfl_data = Nat.min cutoff n0 ->
  length old = n0 * prod_list [dim1 rfl_data; dim2 rfl_data] ->
  exists after_data after_nan,
    after_write n0 0 (Nat.min cutoff n0) [dim1 rfl_data; dim2 rfl_data]
      (map cast (ma_cells (rolled_array rfl_data))) old =
      Ncdata [n0; dim1 rfl_data; dim2 rfl_data] after_data /\
    after_write n0 (Nat.min cutoff n0) (n0 - Nat.min cutoff n0)
      [dim1 rfl_data; dim2 rfl_data]
      (repeat nan (prod_list [n0 - Nat.min cutoff n0; dim1 rfl_data; dim2 rfl_data]))
      after_data =
      Ncdata [n0; dim1 rfl_data; dim2 rfl_data] after_nan /\
    (forall i plane, cells rfl_data !! i = Some plane ->
       slot (Ncdata [n0; dim1 rfl_data; dim2 rfl_data] after_nan) i =
       map cast (concat plane)) /\
    (forall i, cutoff <= i -> i < n0 ->
       slot (Ncdata [n0; dim1 rfl_data; dim2 rfl_data] after_nan) i =
       repeat nan (dim1 rfl_data * dim2 rfl_data)).
Proof.
  intros Hwf Hd0 Hold.
  set (rest := [dim1 rfl_data; dim2 rfl_data]) in *.
  set (c0 := Nat.min cutoff n0) in *.
  set (cells0 := map cast (ma_cells (rolled_array rfl_data))).
  assert (Hrest : prod_list rest = dim1 rfl_data * dim2 rfl_data)
    by (unfold rest; cbn; lia).
  assert (Hcells : length cells0 = c0 * prod_list rest).
  { unfold cells0. rewrite length_map, length_rolled_array by done.
    rewrite Hd0, Hrest. reflexivity. }
  destruct (after_write_shape n0 0 c0 rest cells0 old Hold) as (d1 & Hd1 & Hlen1).
  set (nans := repeat nan (prod_list [n0 - c0; dim1 rfl_data; dim2 rfl_data])).
  assert (Hnans : length nans = (n0 - c0) * prod_list rest).
  { unfold nans. rewrite repeat_length. unfold rest. reflexivity. }
  destruct (after_write_shape n0 c0 (n0 - c0) rest nans d1 Hlen1) as (d2 & Hd2 & Hlen2).
  exists d1, d2. split; [exact Hd1 |]. split; [exact Hd2 |].
  assert (Hplanes : forall i plane, cells rfl_data !! i = Some plane ->
            i < c0 /\ slot (Ncdata (n0 :: rest) d1) i = map cast (concat plane)).
  { intros i plane Hi.
    assert (Hic : i < c0).
    { apply lookup_lt_Some in Hi. destruct Hwf as [Hn _]. unfold c0. lia. }
    split; [done |].
    rewrite <- Hd1, slot_after_write by (done || lia).
    destruct (Nat.ltb_spec i (0 + c0)); [| lia]. cbn [Nat.leb andb].
    rewrite Nat.sub_0_r. unfold cells0, rolled_array. cbn [ma_cells].
    rewrite skipn_map, firstn_map. f_equal.
    rewrite <- (app_nil_r (concat _)), Hrest.
    apply (chunk_of_concat _ _ [] (wf_ndarray3_planes rfl_data Hwf)).
    change (map ?f ?l) with (f <$> l). now rewrite list_lookup_fmap, Hi. }
  split.
  - intros i plane Hi. destruct (Hplanes i plane Hi) as [Hic Hslot].
    rewrite <- Hd2, slot_after_write by (done || lia).
    destruct (Nat.leb_spec c0 i); [lia |]. exact Hslot.
  - intros i Hcut Hin.
    rewrite <- Hd2, slot_after_write by (done || lia).
    destruct (Nat.leb_spec c0 i); [| lia].
    destruct (Nat.ltb_spec i (c0 + (n0 - c0))); [| lia]. cbn [andb].
    unfold nans. rewrite !repeat_replicate, drop_replicate, take_replicate.
    f_equal. change (prod_list [n0 - c0; dim1 rfl_data; dim2 rfl_data])
      with ((n0 - c0) * prod_list rest). rewrite Hrest. nia.
Qed.

(** *** The copy of the reflectance variable *)

Section ReflectanceVariable.

Variable default_fillvals : string -> float.
Variable undefined_cast : string -> float -> float.

Lemma createVariable_inv (name datatype0 : string) (names : list string)
    (fill_value : option att) (ds ds' : dataset) :
  createVariable default_fillvals undefined_cast name datatype0 names fill_value ds
    = Ok ds' ->
  exists nv dl,
    assoc name (ds_variables ds) = None /\
    lookup_dims ds names = Ok dl /\
    ds' = Dataset (ds_ncattrs ds) (ds_dimensions ds) (ds_variables ds ++ [(name, nv)]) /\
    datatype nv = datatype0 /\ dimensions nv = names /\
    shape (data nv) = map dim_len dl /\
    length (flat (data nv)) = prod_list (map dim_len dl).
Proof.
  unfold createVariable. destruct (assoc name (ds_variables ds)); [done |].
  unfold created_variable.
  destruct (lookup_dims ds names) as [dl|]; cbn [mbind result_bind]; [| done].
  destruct (negb (is_primitive datatype0)); [done |].
  destruct (match fill_value with
            | Some (AttNum x) => _
            | Some _ => _
            | None => _
            end) as [atts|]; cbn [mbind result_bind]; [| done].
  intros [= <-]. eexists _, dl. repeat split. cbn. apply repeat_length.
Qed.

Lemma with_var_setncatts (name : string) (atts : gmap string att) (ds ds' : dataset)
    (w : ncvariable) :
  assoc name (ds_variables ds) = Some w ->
  with_var name (fun v => Ok (var_setncatts atts v)) ds = Ok ds' ->
  ds_dimensions ds' = ds_dimensions ds /\
  assoc name (ds_variables ds') = Some (var_setncatts atts w).
Proof.
  intros Hw. unfold with_var, get_var. rewrite Hw. cbn [mbind result_bind].
  intros [= <-]. split; [done |]. cbn. now apply (assoc_set_var_eq name _ w).
Qed.

Lemma with_var_frame (name : string) (f : ncvariable -> result ncvariable)
    (ds ds' : dataset) :
  with_var name f ds = Ok ds' ->
  ds_dimensions ds' = ds_dimensions ds /\
  forall k, k <> name -> assoc k (ds_variables ds') = assoc k (ds_variables ds).
Proof.
  unfold with_var. destruct (get_var ds name) as [v|]; cbn [mbind result_bind]; [| done].
  destruct (f v) as [w|]; cbn [mbind result_bind]; [| done].
  intros [= <-]. split; [done |]. intros k Hk. cbn. now apply assoc_set_var_ne.
Qed.

(** The assignment of the computed array to the first [cutoff] slots. *)
Lemma setitem_upto_rfl (cutoff n0 : nat) (rfl_data : ndarray3) (ds ds' : dataset)
    (w : ncvariable) (old : list float) :
  wf_ndarray3 rfl_data ->
  assoc "rfl_img" (ds_variables ds) = Some w ->
  lookup_dims ds (dimensions w) = Ok (band_dims n0 rfl_data) ->
  data w = Ncdata [n0; dim1 rfl_data; dim2 rfl_data] old ->
  setitem default_fillvals undefined_cast "rfl_img"
    [SliceUpto cutoff; SliceAll; SliceAll] (rolled_array rfl_data) ds = Ok ds' ->
  fixed_kept (ds_dimensions ds) (ds_dimensions ds') /\
  exists cells,
    assoc "rfl_img" (ds_variables ds') =
      Some (set_data w
              (after_write n0 0 (Nat.min cutoff n0) [dim1 rfl_data; dim2 rfl_data]
                 cells old)) /\
    (dim0 rfl_data = Nat.min cutoff n0 ->
     cells = map (astype undefined_cast (datatype w)) (ma_cells (rolled_array rfl_data))).
Proof.
  intros Hwf Hw Hl Hdata H.
  apply (setitem_fixed3 default_fillvals undefined_cast _ _ _ _ _ w
           n0 (dim1 rfl_data) (dim2 rfl_data)
           [(0, Nat.min cutoff n0); (0, dim1 rfl_data); (0, dim2 rfl_data)])
    in H as (Hkept & cells & Hcells & Hnew);
    [| done | exact Hl | now rewrite Hdata | cbn; lia | reflexivity].
  split; [done |]. exists cells. split.
  - rewrite Hnew, Hdata. reflexivity.
  - intros Hd0. revert Hcells. rewrite stored_cells_rolled. unfold conform.
    change (ma_shape (rolled_array rfl_data))
      with [dim0 rfl_data; dim1 rfl_data; dim2 rfl_data].
    cbn [map snd]. rewrite Hd0.
    rewrite bool_decide_true by done. now intros [= <-].
Qed.

(** The assignment of not-a-number to the slots from [cutoff] on. *)
Lemma setitem_from_nan (cutoff n0 : nat) (rfl_data : ndarray3) (ds ds' : dataset)
    (w : ncvariable) (old : list float) :
  assoc "rfl_img" (ds_variables ds) = Some w ->
  lookup_dims ds (dimensions w) = Ok (band_dims n0 rfl_data) ->
  data w = Ncdata [n0; dim1 rfl_data; dim2 rfl_data] old ->
  setitem default_fillvals undefined_cast "rfl_img"
    [SliceFrom cutoff; SliceAll; SliceAll] (Marray (datatype w) [] [] [nan] [false]) ds
    = Ok ds' ->
  fixed_kept (ds_dimensions ds) (ds_dimensions ds') /\
  assoc "rfl_img" (ds_variables ds') =
    Some (set_data w
            (after_write n0 (Nat.min cutoff n0) (n0 - Nat.min cutoff n0)
               [dim1 rfl_data; dim2 rfl_data]
               (repeat nan
                  (prod_list [n0 - Nat.min cutoff n0; dim1 rfl_data; dim2 rfl_data]))
               old)).
Proof.
  intros Hw Hl Hdata H.
  apply (setitem_fixed3 default_fillvals undefined_cast _ _ _ _ _ w
           n0 (dim1 rfl_data) (dim2 rfl_data)
           [(Nat.min cutoff n0, n0 - Nat.min cutoff n0);
            (0, dim1 rfl_data); (0, dim2 rfl_data)])
    in H as (Hkept & cells & Hcells & Hnew);
    [| done | exact Hl | now rewrite Hdata | cbn; lia | reflexivity].
  split; [done |]. rewrite Hnew, Hdata. revert Hcells. unfold conform, stored_cells.
  cbn [map snd ma_shape ma_cells ma_mask ma_dtype zip_with].
  rewrite String.eqb_refl.
  rewrite bool_decide_false by done. rewrite bool_decide_true by done.
  intros [= <-]. reflexivity.
Qed.

(** The assignment of the computed array to the whole variable. *)
Lemma setitem_all_rfl (n0 : nat) (rfl_data : ndarray3) (ds ds' : dataset)
    (w : ncvariable) (old : list float) :
  wf_ndarray3 rfl_data ->
  assoc "rfl_img" (ds_variables ds) = Some w ->
  lookup_dims ds (dimensions w) = Ok (band_dims n0 rfl_data) ->
  data w = Ncdata [n0; dim1 rfl_data; dim2 rfl_data] old ->
  length old = n0 * prod_list [dim1 rfl_data; dim2 rfl_data] ->
  setitem default_fillvals undefined_cast "rfl_img" [SliceAll]
    (rolled_array rfl_data) ds = Ok ds' ->
  fixed_kept (ds_dimensions ds) (ds_dimensions ds') /\
  exists new,
    assoc "rfl_img" (ds_variables ds') =
      Some (set_data w (Ncdata [n0; dim1 rfl_data; dim2 rfl_data] new)) /\
    length new = n0 * prod_list [dim1 rfl_data; dim2 rfl_data] /\
    (dim0 rfl_data = n0 ->
     new = map (astype undefined_cast (datatype w)) (ma_cells (rolled_array rfl_data))).
Proof.
  intros Hwf Hw Hl Hdata Hold H.
  apply (setitem_fixed3 default_fillvals undefined_cast _ _ _ _ _ w
           n0 (dim1 rfl_data) (dim2 rfl_data)
           [(0, n0); (0, dim1 rfl_data); (0, dim2 rfl_data)])
    in H as (Hkept & written & Hcells & Hnew);
    [| done | exact Hl | now rewrite Hdata | cbn; lia | reflexivity].
  split; [done |].
  change (map snd [(0, n0); (0, dim1 rfl_data); (0, dim2 rfl_data)])
    with [n0; dim1 rfl_data; dim2 rfl_data] in *.
  change (map fst [(0, n0); (0, dim1 rfl_data); (0, dim2 rfl_data)])
    with (repeat 0 (length [n0; dim1 rfl_data; dim2 rfl_data])) in *.
  rewrite Hdata in Hnew.
  destruct (Nat.eqb_spec (prod_list [n0; dim1 rfl_data; dim2 rfl_data]) 0)
    as [Hzero | Hpos].
  - exists old. split; [done |]. split; [done |]. intros Hd0. revert Hcells.
    rewrite stored_cells_rolled. unfold conform.
    change (ma_shape (rolled_array rfl_data))
      with [dim0 rfl_data; dim1 rfl_data; dim2 rfl_data].
    rewrite Hd0. rewrite bool_decide_true by done. intros [= <-].
    change (prod_list [n0; dim1 rfl_data; dim2 rfl_data])
      with (n0 * prod_list [dim1 rfl_data; dim2 rfl_data]) in Hzero.
    assert (Hempty : length (map (astype undefined_cast (datatype w))
                               (ma_cells (rolled_array rfl_data))) = 0).
    { rewrite length_map, length_rolled_array, Hd0 by done.
      cbn [prod_list fold_right] in Hzero. lia. }
    rewrite Hzero in Hold. apply nil_length_inv in Hold, Hempty. congruence.
  - destruct (write_region _ _ written _) as [shp new] eqn:Hwrite.
    pose proof (shape_write_region
                  (repeat 0 (length [n0; dim1 rfl_data; dim2 rfl_data]))
                  [n0; dim1 rfl_data; dim2 rfl_data] written
                  (Ncdata [n0; dim1 rfl_data; dim2 rfl_data] old)) as [Hs Hlen].
    rewrite Hwrite in Hs, Hlen. cbn [shape flat] in Hs, Hlen. subst shp.
    exists new. split; [done |]. split; [exact Hlen |]. intros Hd0.
    revert Hcells. rewrite stored_cells_rolled. unfold conform.
    change (ma_shape (rolled_array rfl_data))
      with [dim0 rfl_data; dim1 rfl_data; dim2 rfl_data].
    rewrite Hd0. rewrite bool_decide_true by done. intros [= <-].
    rewrite write_region_whole in Hwrite; [now injection Hwrite as <- |].
    change (concat (map (@concat float) (cells rfl_data)))
      with (ma_cells (rolled_array rfl_data)).
    rewrite length_map, length_rolled_array, Hd0 by done.
    cbn [prod_list fold_right]. lia.
Qed.

End ReflectanceVariable.

Section CopyVariable.

Variable default_fillvals : string -> float.
Variable undefined_cast : string -> float -> float.

Lemma legacy_written_ext (cutoff : nat) (rfl_data : ndarray3) (v v' : ncvariable) :
  datatype v' = datatype v -> data v' = data v ->
  legacy_written undefined_cast cutoff rfl_data v ->
  legacy_written undefined_cast cutoff rfl_data v'.
Proof. unfold legacy_written. now intros -> ->. Qed.

(** The two assignments of a legacy camera. *)
Lemma legacy_writes (cutoff n0 : nat) (rfl_data : ndarray3) (ds ds' : dataset)
    (w : ncvariable) (old : list float) :
  wf_ndarray3 rfl_data ->
  assoc "rfl_img" (ds_variables ds) = Some w ->
  lookup_dims ds (dimensions w) = Ok (band_dims n0 rfl_data) ->
  data w = Ncdata [n0; dim1 rfl_data; dim2 rfl_data] old ->
  length old = n0 * prod_list [dim1 rfl_data; dim2 rfl_data] ->
  (dst ← setitem default_fillvals undefined_cast "rfl_img"
           [SliceUpto cutoff; SliceAll; SliceAll] (rolled_array rfl_data) ds;
   not_a_number ← nan_scalar (datatype w);
   setitem default_fillvals undefined_cast "rfl_img"
     [SliceFrom cutoff; SliceAll; SliceAll] not_a_number dst) = Ok ds' ->
  fixed_kept (ds_dimensions ds) (ds_dimensions ds') /\
  exists new,
    assoc "rfl_img" (ds_variables ds') =
      Some (set_data w (Ncdata [n0; dim1 rfl_data; dim2 rfl_data] new)) /\
    (dim0 rfl_data = Nat.min cutoff n0 ->
     legacy_written undefined_cast cutoff rfl_data
       (set_data w (Ncdata [n0; dim1 rfl_data; dim2 rfl_data] new))).
Proof.
  intros Hwf Hw Hl Hdata Hold.
  destruct (setitem _ _ _ [SliceUpto cutoff; SliceAll; SliceAll] _ ds) as [ds1|] eqn:H1;
    cbn [mbind result_bind]; [| done].
  apply (setitem_upto_rfl _ _ cutoff n0 rfl_data ds ds1 w old Hwf Hw Hl Hdata) in H1
    as (Hkept1 & written & Hw1 & Hwritten).
  unfold nan_scalar. destruct (is_float_type (datatype w)) eqn:Hfloat;
    cbn [mbind result_bind]; [| done].
  destruct (after_write_shape n0 0 (Nat.min cutoff n0) [dim1 rfl_data; dim2 rfl_data]
              written old Hold) as (after_data & Hafter & Hlen1).
  rewrite Hafter in Hw1.
  intros H2.
  apply (setitem_from_nan _ _ cutoff n0 rfl_data ds1 ds'
           (set_data w (Ncdata [n0; dim1 rfl_data; dim2 rfl_data] after_data))
           after_data) in H2 as (Hkept2 & Hw2); [| exact Hw1 | | reflexivity].
  2: { apply (lookup_dims_fixed_kept ds ds1); [done | exact Hl | repeat constructor]. }
  destruct (after_write_shape n0 (Nat.min cutoff n0) (n0 - Nat.min cutoff n0)
              [dim1 rfl_data; dim2 rfl_data]
              (repeat nan
                 (prod_list [n0 - Nat.min cutoff n0; dim1 rfl_data; dim2 rfl_data]))
              after_data Hlen1) as (after_nan & Hnan & Hlen2).
  rewrite Hnan in Hw2.
  split; [eapply fixed_kept_trans; eassumption |].
  exists after_nan. split; [exact Hw2 |].
  intros Hd0.
  destruct (legacy_slots (astype undefined_cast (datatype w)) cutoff n0 rfl_data old
              Hwf Hd0 Hold) as (d1 & d2 & Hd1 & Hd2 & Hplanes & Hnans).
  rewrite <- (Hwritten Hd0), Hafter in Hd1. injection Hd1 as <-.
  rewrite Hnan in Hd2. injection Hd2 as <-.
  exists n0. cbn [set_data data datatype shape]. repeat split; done.
Qed.

(** The assignments to the new reflectance variable, whatever the camera. *)
Lemma rfl_img_writes (camera_type : string) (n0 : nat) (rfl_data : ndarray3)
    (ds ds' : dataset) (w : ncvariable) (old : list float) :
  wf_ndarray3 rfl_data ->
  assoc "rfl_img" (ds_variables ds) = Some w ->
  lookup_dims ds (dimensions w) = Ok (band_dims n0 rfl_data) ->
  data w = Ncdata [n0; dim1 rfl_data; dim2 rfl_data] old ->
  length old = n0 * prod_list [dim1 rfl_data; dim2 rfl_data] ->
  (if String.eqb camera_type "vnir_old" then
     dst ← setitem default_fillvals undefined_cast "rfl_img"
             [SliceUpto 679; SliceAll; SliceAll] (rolled_array rfl_data) ds;
     not_a_number ← nan_scalar (datatype w);
     setitem default_fillvals undefined_cast "rfl_img"
       [SliceFrom 679; SliceAll; SliceAll] not_a_number dst
   else if String.eqb camera_type "vnir_middle" then
     dst ← setitem default_fillvals undefined_cast "rfl_img"
             [SliceUpto 662; SliceAll; SliceAll] (rolled_array rfl_data) ds;
     not_a_number ← nan_scalar (datatype w);
     setitem default_fillvals undefined_cast "rfl_img"
       [SliceFrom 662; SliceAll; SliceAll] not_a_number dst
   else
     setitem default_fillvals undefined_cast "rfl_img" [SliceAll]
       (rolled_array rfl_data) ds) = Ok ds' ->
  fixed_kept (ds_dimensions ds) (ds_dimensions ds') /\
  exists new,
    assoc "rfl_img" (ds_variables ds') =
      Some (set_data w (Ncdata [n0; dim1 rfl_data; dim2 rfl_data] new)) /\
    (camera_type = "vnir_old" -> dim0 rfl_data = Nat.min 679 n0 ->
     legacy_written undefined_cast 679 rfl_data
       (set_data w (Ncdata [n0; dim1 rfl_data; dim2 rfl_data] new))) /\
    (camera_type = "vnir_middle" -> dim0 rfl_data = Nat.min 662 n0 ->
     legacy_written undefined_cast 662 rfl_data
       (set_data w (Ncdata [n0; dim1 rfl_data; dim2 rfl_data] new))) /\
    (camera_type <> "vnir_old" -> camera_type <> "vnir_middle" ->
     dim0 rfl_data = n0 ->
     new = map (astype undefined_cast (datatype w)) (ma_cells (rolled_array rfl_data))).
Proof.
  intros Hwf Hw Hl Hdata Hold.
  destruct (String.eqb_spec camera_type "vnir_old") as [-> | Hnot_old].
  { intros H.
    apply (legacy_writes 679 n0 rfl_data ds ds' w old Hwf Hw Hl Hdata Hold) in H
      as (Hkept & new & Hnew & Hlegacy).
    split; [done |]. exists new. repeat split; try done. }
  destruct (String.eqb_spec camera_type "vnir_middle") as [-> | Hnot_middle].
  { intros H.
    apply (legacy_writes 662 n0 rfl_data ds ds' w old Hwf Hw Hl Hdata Hold) in H
      as (Hkept & new & Hnew & Hlegacy).
    split; [done |]. exists new. repeat split; try done. }
  intros H.
  apply (setitem_all_rfl _ _ n0 rfl_data ds ds' w old Hwf Hw Hl Hdata Hold) in H
    as (Hkept & new & Hnew & _ & Hall).
  split; [done |]. exists new. repeat split; done.
Qed.

(** *** What the copy of a variable leaves alone *)

Lemma keeps_variable_refl (k : string) (ds : dataset) : keeps_variable k ds ds.
Proof.
  split; [apply fixed_kept_refl |]. now destruct (assoc k (ds_variables ds)).
Qed.

Lemma keeps_variable_trans (k : string) (a b c : dataset) :
  keeps_variable k a b -> keeps_variable k b c -> keeps_variable k a c.
Proof.
  intros [Hab Ha] [Hbc Hb]. split; [eapply fixed_kept_trans; eassumption |].
  destruct (assoc k (ds_variables a)) as [w|].
  - intros Hfixed. rewrite (Ha Hfixed) in Hb. apply Hb.
    eapply fixed_shape_kept; eassumption.
  - now rewrite Ha in Hb.
Qed.

Lemma setitem_keeps (k name : string) (elem : list slice) (value : marray)
    (ds ds' : dataset) :
  k <> name ->
  setitem default_fillvals undefined_cast name elem value ds = Ok ds' ->
  keeps_variable k ds ds'.
Proof.
  intros Hk H. split; [now apply setitem_frame in H |].
  destruct (assoc k (ds_variables ds)) as [w|] eqn:Hw.
  - apply setitem_frame in H as [_ H]. now apply H.
  - revert H. unfold setitem.
    destruct (get_var ds name) as [v|]; cbn [mbind result_bind]; [| done].
    destruct (lookup_dims ds (dimensions v)) as [dl|]; cbn [mbind result_bind];
      [| done].
    destruct (length _ <? length elem); [done |].
    destruct (slice_extents _ _ _ _) as [extents|]; cbn [mbind result_bind]; [| done].
    destruct (conform _ _ _) as [cells|]; cbn [mbind result_bind]; [| done].
    destruct (prod_list _ =? 0); [now intros [= <-] |].
    intros H. apply with_var_frame in H as [_ H]. rewrite H by done.
    cbn [ds_variables].
    rewrite (assoc_map_snd
               (extend_var default_fillvals undefined_cast
                  (grow_dims (dimensions v)
                     (zip_with Nat.add (map fst extents) (map snd extents))
                     (ds_dimensions ds)))), Hw.
    reflexivity.
Qed.

Lemma createVariable_keeps (k name datatype0 : string) (names : list string)
    (fill_value : option att) (ds ds' : dataset) :
  k <> name ->
  createVariable default_fillvals undefined_cast name datatype0 names fill_value ds
    = Ok ds' ->
  keeps_variable k ds ds'.
Proof.
  intros Hk H. apply createVariable_inv in H as (nv & dl & _ & _ & -> & _).
  split; [apply fixed_kept_refl |]. cbn [ds_variables]. rewrite assoc_app.
  destruct (assoc k (ds_variables ds)); [done |]. cbn [assoc].
  destruct (String.eqb_spec name k); [congruence | done].
Qed.

Lemma with_var_keeps (k name : string) (f : ncvariable -> result ncvariable)
    (ds ds' : dataset) :
  k <> name -> with_var name f ds = Ok ds' -> keeps_variable k ds ds'.
Proof.
  intros Hk H. apply with_var_frame in H as [Hdims Hvars].
  split; [rewrite Hdims; apply fixed_kept_refl |]. rewrite (Hvars k Hk).
  now destruct (assoc k (ds_variables ds)).
Qed.

Lemma copy_variable_keeps (k : string) (rfl_data : ndarray3) (camera_type : string)
    (ds ds' : dataset) (name : string) (v : ncvariable) :
  k <> name ->
  copy_variable default_fillvals undefined_cast rfl_data camera_type ds (name, v)
    = Ok ds' ->
  keeps_variable k ds ds'.
Proof.
  intros Hk. unfold copy_variable.
  destruct (String.eqb name "Google_Map_View").
  { intros [= <-]. apply keeps_variable_refl. }
  assert (Htwo : forall cutoff dsa dsb,
            (dst ← setitem default_fillvals undefined_cast name
                     [SliceUpto cutoff; SliceAll; SliceAll] (rolled_array rfl_data) dsa;
             not_a_number ← nan_scalar (datatype v);
             setitem default_fillvals undefined_cast name
               [SliceFrom cutoff; SliceAll; SliceAll] not_a_number dst) = Ok dsb ->
            keeps_variable k dsa dsb).
  { intros cutoff dsa dsb.
    destruct (setitem _ _ name [SliceUpto cutoff; SliceAll; SliceAll] _ dsa)
      as [dsx|] eqn:Hx; cbn [mbind result_bind]; [| done].
    destruct (nan_scalar (datatype v)) as [nanv|]; cbn [mbind result_bind]; [| done].
    intros Hy. eapply keeps_variable_trans; eapply setitem_keeps; eassumption. }
  assert (Hrest : forall var_dict dsa,
            keeps_variable k ds dsa ->
            (dst ←
               (if negb (String.eqb name "rfl_img") then
                  values ← var_getitem_all default_fillvals undefined_cast v;
                  setitem default_fillvals undefined_cast name [SliceAll] values dsa
                else if String.eqb camera_type "vnir_old" then
                  dst ← setitem default_fillvals undefined_cast name
                          [SliceUpto 679; SliceAll; SliceAll] (rolled_array rfl_data) dsa;
                  not_a_number ← nan_scalar (datatype v);
                  setitem default_fillvals undefined_cast name
                    [SliceFrom 679; SliceAll; SliceAll] not_a_number dst
                else if String.eqb camera_type "vnir_middle" then
                  dst ← setitem default_fillvals undefined_cast name
                          [SliceUpto 662; SliceAll; SliceAll] (rolled_array rfl_data) dsa;
                  not_a_number ← nan_scalar (datatype v);
                  setitem default_fillvals undefined_cast name
                    [SliceFrom 662; SliceAll; SliceAll] not_a_number dst
                else
                  setitem default_fillvals undefined_cast name [SliceAll]
                    (rolled_array rfl_data) dsa);
             with_var name (fun v => Ok (var_setncatts var_dict v)) dst) = Ok ds' ->
            keeps_variable k ds ds').
  { intros var_dict dsa Ha.
    destruct (if negb (String.eqb name "rfl_img") then _ else _) as [dsb|] eqn:Hb;
      cbn [mbind result_bind]; [| done].
    intros H. eapply keeps_variable_trans; [exact Ha |].
    eapply keeps_variable_trans; [| eapply with_var_keeps; eassumption].
    revert Hb. destruct (negb (String.eqb name "rfl_img")).
    { destruct (var_getitem_all _ _ v) as [values|]; cbn [mbind result_bind];
        [| done].
      now apply setitem_keeps. }
    destruct (String.eqb camera_type "vnir_old"); [apply Htwo |].
    destruct (String.eqb camera_type "vnir_middle"); [apply Htwo |].
    now apply setitem_keeps. }
  destruct (ncattrs v !! "_FillValue") as [fill_value|].
  - destruct (createVariable _ _ name _ _ (Some fill_value) ds) as [dsa|] eqn:Hc;
      cbn [mbind result_bind]; [| done].
    apply Hrest. eapply createVariable_keeps; eassumption.
  - destruct (createVariable _ _ name _ _ None ds) as [dsa|] eqn:Hc;
      cbn [mbind result_bind]; [| done].
    apply Hrest. eapply createVariable_keeps; eassumption.
Qed.

(** A variable is copied under a name that the new file does not have yet. *)
Lemma copy_variable_fresh (rfl_data : ndarray3) (camera_type : string)
    (ds ds' : dataset) (name : string) (v : ncvariable) :
  name <> "Google_Map_View" ->
  copy_variable default_fillvals undefined_cast rfl_data camera_type ds (name, v)
    = Ok ds' ->
  assoc name (ds_variables ds) = None.
Proof.
  intros Hname. unfold copy_variable. apply String.eqb_neq in Hname. rewrite Hname.
  unfold createVariable.
  destruct (assoc name (ds_variables ds)); [| done].
  now destruct (ncattrs v !! "_FillValue").
Qed.

(** The copy of the reflectance variable. *)
Lemma copy_variable_rfl_img (rfl_data : ndarray3) (camera_type : string)
    (ds ds' : dataset) (variable : ncvariable) (n0 : nat) :
  wf_ndarray3 rfl_data ->
  lookup_dims ds (dimensions variable) = Ok (band_dims n0 rfl_data) ->
  copy_variable default_fillvals undefined_cast rfl_data camera_type ds
    ("rfl_img", variable) = Ok ds' ->
  fixed_kept (ds_dimensions ds) (ds_dimensions ds') /\
  exists v',
    assoc "rfl_img" (ds_variables ds') = Some v' /\
    datatype v' = datatype variable /\
    dimensions v' = dimensions variable /\
    shape (data v') = [n0; dim1 rfl_data; dim2 rfl_data] /\
    (camera_type = "vnir_old" -> dim0 rfl_data = Nat.min 679 n0 ->
     legacy_written undefined_cast 679 rfl_data v') /\
    (camera_type = "vnir_middle" -> dim0 rfl_data = Nat.min 662 n0 ->
     legacy_written undefined_cast 662 rfl_data v') /\
    (camera_type <> "vnir_old" -> camera_type <> "vnir_middle" ->
     dim0 rfl_data = n0 ->
     flat (data v') =
       map (astype undefined_cast (datatype v')) (ma_cells (rolled_array rfl_data))).
Proof.
  intros Hwf Hl. unfold copy_variable.
  change (String.eqb "rfl_img" "Google_Map_View") with false.
  change (negb (String.eqb "rfl_img" "rfl_img")) with false. cbv iota.
  assert (Hrest : forall fill_value var_dict dsa,
            createVariable default_fillvals undefined_cast "rfl_img"
              (datatype variable) (dimensions variable) fill_value ds = Ok dsa ->
            (dst ←
               (if String.eqb camera_type "vnir_old" then
                  dst ← setitem default_fillvals undefined_cast "rfl_img"
                          [SliceUpto 679; SliceAll; SliceAll] (rolled_array rfl_data) dsa;
                  not_a_number ← nan_scalar (datatype variable);
                  setitem default_fillvals undefined_cast "rfl_img"
                    [SliceFrom 679; SliceAll; SliceAll] not_a_number dst
                else if String.eqb camera_type "vnir_middle" then
                  dst ← setitem default_fillvals undefined_cast "rfl_img"
                          [SliceUpto 662; SliceAll; SliceAll] (rolled_array rfl_data) dsa;
                  not_a_number ← nan_scalar (datatype variable);
                  setitem default_fillvals undefined_cast "rfl_img"
                    [SliceFrom 662; SliceAll; SliceAll] not_a_number dst
                else
                  setitem default_fillvals undefined_cast "rfl_img" [SliceAll]
                    (rolled_array rfl_data) dsa);
             with_var "rfl_img" (fun v => Ok (var_setncatts var_dict v)) dst) = Ok ds' ->
            fixed_kept (ds_dimensions ds) (ds_dimensions ds') /\
            exists v',
              assoc "rfl_img" (ds_variables ds') = Some v' /\
              datatype v' = datatype variable /\
              dimensions v' = dimensions variable /\
              shape (data v') = [n0; dim1 rfl_data; dim2 rfl_data] /\
              (camera_type = "vnir_old" -> dim0 rfl_data = Nat.min 679 n0 ->
               legacy_written undefined_cast 679 rfl_data v') /\
              (camera_type = "vnir_middle" -> dim0 rfl_data = Nat.min 662 n0 ->
               legacy_written undefined_cast 662 rfl_data v') /\
              (camera_type <> "vnir_old" -> camera_type <> "vnir_middle" ->
               dim0 rfl_data = n0 ->
               flat (data v') =
                 map (astype undefined_cast (datatype v'))
                   (ma_cells (rolled_array rfl_data)))).
  { intros fill_value var_dict dsa Hc.
    apply createVariable_inv in Hc
      as (nv & dl & Hnone & Hdl & -> & Htype & Hnames & Hshape & Hlen).
    rewrite Hl in Hdl. injection Hdl as <-.
    destruct nv as [nv_type nv_dims nv_atts [nv_shape old]].
    cbn [datatype dimensions data shape flat] in Htype, Hnames, Hshape, Hlen.
    subst nv_type nv_dims nv_shape.
    change (map dim_len (band_dims n0 rfl_data))
      with [n0; dim1 rfl_data; dim2 rfl_data] in *.
    set (nv := NcVariable (datatype variable) (dimensions variable) nv_atts
                 (Ncdata [n0; dim1 rfl_data; dim2 rfl_data] old)).
    set (dsa := Dataset (ds_ncattrs ds) (ds_dimensions ds)
                  (ds_variables ds ++ [("rfl_img", nv)])).
    destruct (if String.eqb camera_type "vnir_old" then _ else _) as [dsb|] eqn:Hb;
      cbn [mbind result_bind]; [| done].
    apply (rfl_img_writes camera_type n0 rfl_data dsa dsb nv old Hwf) in Hb
      as (Hkept & new & Hnew & Hold & Hmiddle & Hother).
    - intros H. apply (with_var_setncatts _ _ _ _ _ Hnew) in H as [Hdims Hv'].
      rewrite Hdims. split; [exact Hkept |].
      eexists. split; [exact Hv' |].
      repeat split; done.
    - subst dsa. cbn [ds_variables]. now rewrite assoc_app, Hnone.
    - apply (lookup_dims_fixed_kept ds dsa);
        [apply fixed_kept_refl | exact Hl | repeat constructor].
    - reflexivity.
    - rewrite Hlen. cbn [prod_list fold_right]. lia. }
  destruct (ncattrs variable !! "_FillValue") as [fill_value|].
  - destruct (createVariable _ _ "rfl_img" _ _ (Some fill_value) ds) as [dsa|] eqn:Hc;
      cbn [mbind result_bind]; [| done].
    apply (Hrest _ _ _ Hc).
  - destruct (createVariable _ _ "rfl_img" _ _ None ds) as [dsa|] eqn:Hc;
      cbn [mbind result_bind]; [| done].
    apply (Hrest _ _ _ Hc).
Qed.

End CopyVariable.

(** *** The loops of [update_netcdf] *)

Lemma for_each_app {A S : Type} (body : S -> A -> result S) (l l' : list A) (s : S) :
  for_each body (l ++ l') s = (s' ← for_each body l s; for_each body l' s').
Proof.
  revert s. induction l as [|x l IH]; intros s; cbn [for_each app]; [done |].
  destruct (body s x) as [s1|]; cbn [mbind result_bind]; [apply IH | done].
Qed.

Lemma assoc_split {A} (key : string) (l : list (string * A)) (v : A) :
  assoc key l = Some v ->
  exists pre post,
    l = pre ++ (key, v) :: post /\ Forall (fun item => fst item <> key) pre.
Proof.
  induction l as [|[k w] l IH]; [done |]. cbn [assoc].
  destruct (String.eqb_spec k key) as [-> | Hne].
  - intros [= ->]. now exists [], l.
  - intros H. destruct (IH H) as (pre & post & -> & Hpre).
    exists ((k, w) :: pre), post. split; [done |]. now constructor.
Qed.

Lemma slot_whole (f : float -> float) (n0 : nat) (a : ndarray3) (i : nat)
    (plane : list (list float)) :
  wf_ndarray3 a ->
  cells a !! i = Some plane ->
  slot (Ncdata [n0; dim1 a; dim2 a] (map f (ma_cells (rolled_array a)))) i =
  map f (concat plane).
Proof.
  intros Hwf Hi. unfold slot, rolled_array. cbn [shape flat tail ma_cells].
  replace (prod_list [dim1 a; dim2 a]) with (dim1 a * dim2 a)
    by (cbn [prod_list fold_right]; lia).
  rewrite skipn_map, firstn_map. f_equal.
  rewrite <- (app_nil_r (concat _)).
  apply (chunk_of_concat (dim1 a * dim2 a) _ []); [now apply wf_ndarray3_planes |].
  now rewrite list_lookup_fmap, Hi.
Qed.

(** A dimension of fixed length is copied as it is; a file has no dimension
    of fixed length 0. *)
Lemma copied_dimension_fixed (d : dimension) :
  isunlimited d = false -> 0 < dim_len d ->
  created_dimension (if isunlimited d then None else Some (dim_len d)) = d.
Proof. destruct d as [[|n] []]; cbn; (done || lia). Qed.

Lemma copy_dimensions_loop (items : list (string * dimension)) :
  forall ds ds',
    for_each copy_dimension items ds = Ok ds' ->
    ds_ncattrs ds' = ds_ncattrs ds /\
    ds_variables ds' = ds_variables ds /\
    ds_dimensions ds' =
      ds_dimensions ds ++
      map (fun '(n, d) =>
             (n, created_dimension (if isunlimited d then None else Some (dim_len d))))
          items.
Proof.
  induction items as [|[n d] items IH]; intros ds ds'; cbn [for_each].
  - intros [= <-]. now rewrite app_nil_r.
  - destruct (copy_dimension ds (n, d)) as [ds1|] eqn:H1; cbn [mbind result_bind];
      [| done].
    intros H. apply IH in H as (Ha & Hv & Hd).
    unfold copy_dimension, createDimension in H1.
    destruct (assoc n (ds_dimensions ds)); [done |]. injection H1 as <-.
    cbn in Ha, Hv, Hd. rewrite Ha, Hv, Hd, <- app_assoc. done.
Qed.

Lemma lookup_dims_kept (P : dimension -> Prop) (ds ds' : dataset)
    (names : list string) (dl : list dimension) :
  (forall k d, assoc k (ds_dimensions ds) = Some d -> P d ->
               assoc k (ds_dimensions ds') = Some d) ->
  lookup_dims ds names = Ok dl ->
  Forall P dl ->
  lookup_dims ds' names = Ok dl.
Proof.
  intros Hkept. revert dl. induction names as [|n names IH]; intros dl;
    cbn [lookup_dims]; [done |].
  destruct (assoc n (ds_dimensions ds)) as [d|] eqn:Hd; [| done].
  destruct (lookup_dims ds names) as [dl'|]; [| done].
  cbn [mbind result_bind]. intros [= <-] HP.
  apply Forall_cons in HP as [Hd0 HP].
  now rewrite (Hkept n d Hd Hd0), (IH dl' eq_refl HP).
Qed.

Section UpdateNetcdf.

Variable default_fillvals : string -> float.
Variable undefined_cast : string -> float -> float.

Lemma copy_variables_keep (k : string) (rfl_data : ndarray3) (camera_type : string)
    (items : list (string * ncvariable)) :
  Forall (fun item => fst item <> k) items ->
  forall ds ds',
    for_each (copy_variable default_fillvals undefined_cast rfl_data camera_type)
      items ds = Ok ds' ->
    keeps_variable k ds ds'.
Proof.
  induction 1 as [|[name v] items Hname _ IH]; intros ds ds'; cbn [for_each].
  - intros [= <-]. apply keeps_variable_refl.
  - destruct (copy_variable _ _ _ _ ds (name, v)) as [ds1|] eqn:H1;
      cbn [mbind result_bind]; [| done].
    intros H. eapply keeps_variable_trans; [| apply (IH _ _ H)].
    eapply copy_variable_keeps; [| exact H1]. cbn in Hname. congruence.
Qed.

(** Once copied, the reflectance variable is left alone. *)
Lemma copy_variables_after (rfl_data : ndarray3) (camera_type : string)
    (items : list (string * ncvariable)) :
  forall ds ds' w,
    assoc "rfl_img" (ds_variables ds) = Some w ->
    fixed_shape (ds_dimensions ds) w ->
    for_each (copy_variable default_fillvals undefined_cast rfl_data camera_type)
      items ds = Ok ds' ->
    assoc "rfl_img" (ds_variables ds') = Some w.
Proof.
  induction items as [|[name v] items IH]; intros ds ds' w Hw Hfixed;
    cbn [for_each].
  - now intros [= <-].
  - destruct (copy_variable _ _ _ _ ds (name, v)) as [ds1|] eqn:H1;
      cbn [mbind result_bind]; [| done].
    destruct (String.eqb_spec name "rfl_img") as [-> | Hname].
    { apply copy_variable_fresh in H1; [congruence | done]. }
    apply (copy_variable_keeps _ _ "rfl_img") in H1 as [Hkept Hsame]; [| congruence].
    rewrite Hw in Hsame. apply IH; [now apply Hsame |].
    eapply fixed_shape_kept; eassumption.
Qed.

End UpdateNetcdf.

(** *** The reflectance variable of the new file *)

(** C2: after a completed rewrite of a template whose reflectance variable
    lies over three dimensions of fixed length, the new variable has the
    data type and the extents of the template's.  For [vnir_old] (resp.
    [vnir_middle]), the computed array having the bands below the cutoff,
    the band slots below 679 (resp. 662) hold the planes of the computed
    array, converted to the data type of the variable, and every slot from
    679 (resp. 662) to the last one holds not-a-number in every cell.  For
    every other camera type, the computed array having the extent of the
    variable, the variable holds the whole computed array, converted to its
    data type, plane by plane. *)
Theorem update_netcdf_writes_rfl_img (default_fillvals : string -> float)
    (undefined_cast : string -> float -> float)
    (src dst : dataset) (rfl_data : ndarray3) (camera_type : string)
    (variable : ncvariable) (total_bands : nat) :
  wf_ndarray3 rfl_data ->
  0 < total_bands -> 0 < dim1 rfl_data -> 0 < dim2 rfl_data ->
  update_netcdf default_fillvals undefined_cast (Ok src) rfl_data camera_type = Ok dst ->
  assoc "rfl_img" (ds_variables src) = Some variable ->
  lookup_dims src (dimensions variable) = Ok (band_dims total_bands rfl_data) ->
  exists v',
    assoc "rfl_img" (ds_variables dst) = Some v' /\
    datatype v' = datatype variable /\
    shape (data v') = [total_bands; dim1 rfl_data; dim2 rfl_data] /\
    (camera_type = "vnir_old" -> dim0 rfl_data = Nat.min 679 total_bands ->
     legacy_written undefined_cast 679 rfl_data v') /\
    (camera_type = "vnir_middle" -> dim0 rfl_data = Nat.min 662 total_bands ->
     legacy_written undefined_cast 662 rfl_data v') /\
    (camera_type <> "vnir_old" -> camera_type <> "vnir_middle" ->
     dim0 rfl_data = total_bands ->
     flat (data v') =
       map (astype undefined_cast (datatype v')) (ma_cells (rolled_array rfl_data)) /\
     forall i plane,
       cells rfl_data !! i = Some plane ->
       slot (data v') i = map (astype undefined_cast (datatype v')) (concat plane)).
Proof.
  intros Hwf Hn0 Hd1 Hd2 H Hsrc Hl.
  unfold update_netcdf in H. cbn [mbind result_bind] in H.
  destruct (for_each copy_dimension _ _) as [ds0|] eqn:Hdims;
    cbn [mbind result_bind] in H; [| done].
  destruct (for_each (copy_variable _ _ _ _) _ ds0) as [ds1|] eqn:Hvars;
    cbn [mbind result_bind] in H; [| done].
  rewrite Hsrc, bool_decide_true in H by done. injection H as ->.
  apply copy_dimensions_loop in Hdims as (_ & _ & Hdims). cbn [ds_dimensions app] in Hdims.
  destruct (assoc_split _ _ _ Hsrc) as (pre & post & Hitems & Hpre).
  rewrite Hitems, for_each_app in Hvars.
  destruct (for_each _ pre ds0) as [dsp|] eqn:Hbefore;
    cbn [mbind result_bind for_each] in Hvars; [| done].
  destruct (copy_variable _ _ _ _ dsp ("rfl_img", variable)) as [dsr|] eqn:Hcopy;
    cbn [mbind result_bind] in Hvars; [| done].
  apply copy_variables_keep with (k := "rfl_img") in Hbefore as [Hkept0 _];
    [| exact Hpre].
  assert (Hfixed : Forall (fun d => isunlimited d = false) (band_dims total_bands rfl_data))
    by repeat constructor.
  assert (Hl0 : lookup_dims ds0 (dimensions variable) = Ok (band_dims total_bands rfl_data)).
  { apply (lookup_dims_kept (fun d => isunlimited d = false /\ 0 < dim_len d) src);
      [| exact Hl | repeat constructor; done].
    intros k d Hk [Hd Hpos]. rewrite Hdims.
    rewrite (assoc_map_snd
               (fun d => created_dimension
                           (if isunlimited d then None else Some (dim_len d)))), Hk.
    cbn [fmap option_fmap option_map]. now rewrite copied_dimension_fixed. }
  pose proof (lookup_dims_fixed_kept _ _ _ _ Hkept0 Hl0 Hfixed) as Hlp.
  apply (copy_variable_rfl_img _ _ _ _ _ _ _ total_bands Hwf Hlp) in Hcopy
    as (Hkeptr & v' & Hv' & Htype & Hnames & Hshape & Hold & Hmiddle & Hother).
  exists v'. split.
  { apply (copy_variables_after _ _ _ _ _ _ _ _ Hv') in Hvars; [done |].
    apply (fixed_shape_lookup dsr v' (band_dims total_bands rfl_data));
      [| exact Hfixed | exact Hshape].
    rewrite Hnames. exact (lookup_dims_fixed_kept _ _ _ _ Hkeptr Hlp Hfixed). }
  do 4 (split; [done |]).
  intros Hnot_old Hnot_middle Hd0. specialize (Hother Hnot_old Hnot_middle Hd0).
  split; [exact Hother |]. intros i plane Hi.
  destruct (data v') as [shp written]. cbn [shape flat] in *. subst shp written.
  now apply slot_whole.
Qed.

Lemma update_netcdf_writes_rfl_img_witness :
  exists dst v',
    update_netcdf f4_fill zero_cast (Ok legacy_template) legacy_rfl "vnir_old" = Ok dst /\
    assoc "rfl_img" (ds_variables dst) = Some v' /\
    legacy_written zero_cast 679 legacy_rfl v'.
Proof.
  destruct (update_netcdf f4_fill zero_cast (Ok legacy_template) legacy_rfl "vnir_old")
    as [dst|] eqn:Hdst; [| vm_compute in Hdst; discriminate].
  destruct (update_netcdf_writes_rfl_img f4_fill zero_cast legacy_template dst
              legacy_rfl "vnir_old"
              (NcVariable "f4" ["wavelength"; "y"; "x"]
                 {[ "_FillValue" := AttNum 0x1.ep+122%float ]}
                 (Ncdata [955; 1; 2] (repeat 0%float 1910)))
              955
              ltac:(split; [reflexivity | repeat constructor])
              ltac:(lia) ltac:(cbn; lia) ltac:(cbn; lia)
              Hdst eq_refl eq_refl)
    as (v' & Hv' & _ & _ & Hold & _).
  exists dst, v'. repeat split; [done |]. now apply Hold.
Defined.

(** The band slots of a template of 955 bands after the rewrite for the
    oldest camera: the values 2 and 3 fit 32 bits. *)
Example legacy_slots_evaluated :
  (fun v => (shape (data v), slot (data v) 0, slot (data v) 678,
             slot (data v) 679, slot (data v) 954)) <$>
    (update_netcdf f4_fill zero_cast (Ok legacy_template) legacy_rfl "vnir_old"
     ≫= fun dst => get_var dst "rfl_img") =
  Ok ([955; 1; 2], [2; 3]%float, [2; 3]%float, [nan; nan], [nan; nan]).
Proof. vm_compute. reflexivity. Qed.

(** ** Variables copied from the template *)

(** C7: the rewrite of a template with a packed variable.  The template
    stores the 16-bit integers 4 and 8 under the attribute
    [scale_factor = 0.5]; the rewrite reads them unpacked, as 2 and 4,
    stores these in the new variable while it has no attribute yet, and
    then copies the attribute: the new file holds 2 and 4 under
    [scale_factor = 0.5], not the data of the template.  The same variable
    without the attribute is copied as it is. *)
Example update_netcdf_rescales_packed_variable :
  (dst ← update_netcdf netcdf_fillvals zero_cast (Ok packed_template) cube_of_twos
           "swir_new";
   get_var dst "temperature") =
    Ok (NcVariable "i2" ["t"] {[ "scale_factor" := AttNum 0.5 ]}
          (Ncdata [2] [2; 4]%float)) /\
  get_var packed_template "temperature" =
    Ok (NcVariable "i2" ["t"] {[ "scale_factor" := AttNum 0.5 ]}
          (Ncdata [2] [4; 8]%float)) /\
  (dst ← update_netcdf netcdf_fillvals zero_cast (Ok plain_template) cube_of_twos
           "swir_new";
   get_var dst "temperature") = get_var plain_template "temperature".
Proof. vm_compute. repeat split. Qed.
